(** * Link inline tool (src/components/inline-tools/inline-tool-link.ts)

    A shallow embedding of [LinkInlineTool]: the URL validation and
    normalisation helpers, the known-pages list and its search filter, and
    the controller methods ([surround], [checkState], [clear],
    [enterPressed], ...) as transitions over an explicit state.

    JavaScript strings are sequences of UTF-16 code units; they are modelled
    as [list N].  The regular expressions of the source are run by a small
    backtracking matcher for the fragment they use.  The browser and the
    language runtime are a parameter ([Host]); the tool's own fields and
    the calls it issues are explicit.  The [console.log] diagnostics are
    left out. *)

From Stdlib Require Import NArith List Bool Ascii String Lia.
From stdpp Require Import base list option.
Import ListNotations.

Local Open Scope N_scope.
Local Open Scope list_scope.

(** ** JavaScript strings *)

Module JS.

(** A string value: its UTF-16 code units. *)
Definition jsstring : Type := list N.

(** A string literal of the source, from its ASCII spelling. *)
Definition lit (s : string) : jsstring :=
  map N_of_ascii (list_ascii_of_string s).

(** Strict equality [===] of two strings. *)
Fixpoint eqb (a b : jsstring) : bool :=
  match a, b with
  | [], [] => true
  | x :: a', y :: b' => N.eqb x y && eqb a' b'
  | _, _ => false
  end.

(** WhiteSpace and LineTerminator code points of ECMAScript: the set
    matched by the class escape [\s] and stripped by
    [String.prototype.trim]. *)
Definition isSpace (c : N) : bool :=
  (c =? 9) || (c =? 10) || (c =? 11) || (c =? 12) || (c =? 13)
  || (c =? 32) || (c =? 160) || (c =? 5760)
  || ((8192 <=? c) && (c <=? 8202))
  || (c =? 8232) || (c =? 8233) || (c =? 8239) || (c =? 8287)
  || (c =? 12288) || (c =? 65279).

(** The class escape [\w] without the unicode and ignoreCase flags:
    [A-Za-z0-9_]. *)
Definition isWord (c : N) : bool :=
  ((65 <=? c) && (c <=? 90)) || ((97 <=? c) && (c <=? 122))
  || ((48 <=? c) && (c <=? 57)) || (c =? 95).

Definition slash : N := 47.
Definition colon : N := 58.
Definition hash : N := 35.

Fixpoint trimStart (s : jsstring) : jsstring :=
  match s with
  | c :: s' => if isSpace c then trimStart s' else s
  | [] => []
  end.

Definition trimEnd (s : jsstring) : jsstring :=
  rev (trimStart (rev s)).

(** [String.prototype.trim]. *)
Definition trim (s : jsstring) : jsstring := trimEnd (trimStart s).

(** LF and CR, the two characters a text input drops from a value
    assigned to it. *)
Definition isNewline (c : N) : bool := (c =? 10) || (c =? 13).

Definition hasNewline (s : jsstring) : bool := existsb isNewline s.

(** The value sanitization of an [<input>] in the text state: the value
    without its LF and CR characters. *)
Definition stripNewlines (s : jsstring) : jsstring :=
  List.filter (fun c => negb (isNewline c)) s.

(** The leading character of a non-empty string is no white space. *)
Definition noLead (s : jsstring) : Prop :=
  match s with
  | c :: _ => isSpace c = false
  | [] => True
  end.

(** [String.prototype.startsWith]-style prefix test. *)
Fixpoint startsWith (s p : jsstring) {struct p} : bool :=
  match p, s with
  | [], _ => true
  | y :: p', x :: s' => N.eqb x y && startsWith s' p'
  | _ :: _, [] => false
  end.

(** [String.prototype.includes]: [q] occurs in [s] as a substring. *)
Fixpoint includes (s q : jsstring) : bool :=
  startsWith s q ||
  match s with
  | [] => false
  | _ :: s' => includes s' q
  end.

(** [s.length] *)
Definition length (s : jsstring) : N := N.of_nat (List.length s).

(** A number used as a condition: zero is falsy. *)
Definition truthyNumber (n : N) : bool := negb (N.eqb n 0).

(** A string used as a condition: only the empty string is falsy. *)
Definition truthy (s : jsstring) : bool :=
  match s with
  | [] => false
  | _ :: _ => true
  end.

(** [s.substring(0, 1)]. *)
Definition substring01 (s : jsstring) : jsstring := firstn 1 s.

(** *** Regular expressions

    The patterns of the source are sequences of single-character classes,
    one of them under [+], anchored at the start of the input.  [test]
    is [RegExp.prototype.test] for an anchored pattern, [search] for an
    unanchored one. *)
Inductive atom : Type :=
| One (cls : N -> bool)    (* one character of the class *)
| Plus (cls : N -> bool).  (* one or more, with backtracking *)

Fixpoint matchHere (p : list atom) (s : jsstring) {struct s} : bool :=
  match p with
  | [] => true
  | One cls :: p' =>
      match s with
      | [] => false
      | c :: s' => cls c && matchHere p' s'
      end
  | Plus cls :: p' =>
      match s with
      | [] => false
      | c :: s' => cls c && (matchHere p' s' || matchHere p s')
      end
  end.

(** [/^p/.test(s)] *)
Definition test (p : list atom) (s : jsstring) : bool := matchHere p s.

(** [/p/.test(s)]: a match starting at some position. *)
Fixpoint search (p : list atom) (s : jsstring) : bool :=
  matchHere p s ||
  match s with
  | [] => false
  | _ :: s' => search p s'
  end.

Definition chr (c : N) : atom := One (N.eqb c).

End JS.

Import JS.
Arguments lit : simpl never.

(** ** URL validation and normalisation *)

(** [/\s/] *)
Definition re_space : list atom := [One isSpace].

(** [/^(\w+):\/\//] *)
Definition re_protocol : list atom :=
  [Plus isWord; chr colon; chr slash; chr slash].

(** [[^\/\s]] *)
Definition notSlashSpace (c : N) : bool :=
  negb (N.eqb c slash) && negb (isSpace c).

(** [/^\/[^\/\s]/] *)
Definition re_internal : list atom := [chr slash; One notSlashSpace].

(** [/^\/\/[^\/\s]/] *)
Definition re_protocolRelative : list atom :=
  [chr slash; chr slash; One notSlashSpace].

(** [validateURL]: no white space allowed. *)
Definition validateURL (str : jsstring) : bool :=
  negb (search re_space str).

(** [addProtocol]: adds [http://] to links like [vc.ru]. *)
Definition addProtocol (link : jsstring) : jsstring :=
  if test re_protocol link then link
  else
    let isInternal := test re_internal link in
    let isAnchor := JS.eqb (substring01 link) (lit "#") in
    let isProtocolRelative := test re_protocolRelative link in
    if negb isInternal && negb isAnchor && negb isProtocolRelative
    then lit "http://" ++ link
    else link.

(** [prepareLink]: trim, then add the protocol. *)
Definition prepareLink (link : jsstring) : jsstring :=
  let link := trim link in
  let link := addProtocol link in
  link.


(** ** Data model *)

(** A known page, as stored under [window.localStorage.existingLinks]. *)
Record Page : Type := mkPage { name : jsstring; url : jsstring }.

(** The two entries of the specification's example list. *)
Definition Home : Page := mkPage (lit "Home") (lit "/").
Definition About : Page := mkPage (lit "About") (lit "/about").

(** An [<li>] of the rendered list: the page captured by its click listener
    (whose text is the element's markup) and whether its class list holds
    ['selected-item']. *)
Record Li : Type := mkLi { li_each : Page; li_selected : bool }.

(** Calls that leave the tool: the notifier, the logger of [utils], the
    host toolbars, the triggering event, the document's native commands
    and the focus request on the URL input, in the order they are issued. *)
Inductive Effect : Type :=
| notifier_show (message style : string)
| utils_log (msg type : string) (arg : jsstring)
| document_execCommand (command : string) (value : option jsstring)
| event_preventDefault
| event_stopPropagation
| event_stopImmediatePropagation
| toolbar_close
| inlineToolbar_close
| input_focus.

(** The element types of the host page: a selection range, an element of
    the document, and the document itself. *)
Class HostTypes : Type := {
  Range : Type;
  Element : Type;
  Dom : Type
}.

(** The live side of the browser: the current native selection and the
    document it lives in. *)
Record Browser `{HostTypes} : Type := mkBrowser {
  live : option Range;
  dom : Dom
}.
Arguments mkBrowser {_} live dom.

(** What the tool asks of the browser and of the language runtime.  None of
    it is code of the tool, so it stays abstract: every theorem below holds
    for any host. *)
Class Host `{HostTypes} : Type := {
  (** nearest ancestor of the range's anchor node with the given tag name *)
  ancestor : string -> Dom -> Range -> option Element;
  (** [element.getAttribute(attr)], [None] for [null] *)
  getAttribute : Element -> string -> option jsstring;
  (** the range covering exactly the contents of an element *)
  contentsOf : Dom -> Element -> Range;
  (** the range collapsed to its end boundary *)
  endOf : Range -> Range;
  (** [document.execCommand(command, false, value)] on the live selection *)
  execCommand : string -> option jsstring -> Browser -> Browser;
  (** drawing and erasing the placeholder highlight *)
  paintFake : Browser -> Browser;
  unpaintFake : Browser -> Browser;
  (** what focusing the URL input does to the live selection *)
  focusInput : Browser -> Browser;
  (** [String.prototype.toLocaleLowerCase] in the host's locale *)
  toLocaleLowerCase : jsstring -> jsstring;
  (** [JSON.parse] of a stored page list, [None] when it throws.  The
      store is taken to hold page lists, arrays of [{name, url}] objects
      with string members, as the data model has them; a text that parses
      to any other JSON value is outside the model. *)
  JSON_parse : jsstring -> option (list Page)
}.

(** *** The selection guard

    [SelectionUtils] is the class of [components/selection]; what its
    operations do is taken from the specification of the selection guard. *)

(** Modelled from the spec: the class [SelectionUtils] of
    [components/selection] is missing; an instance owns one snapshot slot
    and one fake-highlight flag. *)
Record SelectionUtils `{HostTypes} : Type := mkSelectionUtils {
  savedSelectionRange : option Range;
  isFakeBackgroundEnabled : bool
}.
Arguments mkSelectionUtils {_} savedSelectionRange isFakeBackgroundEnabled.

(** The rendered elements the tool keeps in [nodes]: the class lists of the
    button, the panel and the URL input, and the values of the two inputs.
    The children of [nodes.ul] are the elements of [linkElements]. *)
Record Nodes : Type := mkNodes {
  button_unlink : bool;        (* CSS.buttonUnlink on nodes.button *)
  button_active : bool;        (* CSS.buttonActive on nodes.button *)
  input_value : jsstring;      (* nodes.input.value *)
  input_showed : bool;         (* CSS.inputShowed on nodes.input *)
  div_showed : bool;           (* CSS.divShowed on nodes.div *)
  searchInput_value : jsstring (* nodes.searchInput.value *)
}.

(** The fields of a [LinkInlineTool], whose buttons and panel the host has
    rendered ([render] and [renderActions] run when the tool is added to
    the inline toolbar, before any other method). *)
Record Tool `{HostTypes} : Type := mkTool {
  pageLinks : list Page;
  linkElements : list Li;
  nodes : Nodes;
  selection : SelectionUtils;
  inputOpened : bool
}.
Arguments mkTool {_} pageLinks linkElements nodes selection inputOpened.

(** The tool together with its surroundings. *)
Record State `{HostTypes} : Type := mkState {
  tool : Tool;
  browser : Browser;
  existingLinks : option jsstring;  (* window.localStorage.existingLinks *)
  effects : list Effect
}.
Arguments mkState {_} tool browser existingLinks effects.

(** ** Results and the state monad of the methods *)

Inductive Res (A : Type) : Type :=
| Ok (a : A)
| Throw (error : string).
Arguments Ok {A} a.
Arguments Throw {A} error.

Definition M `{HostTypes} (A : Type) : Type := State -> Res (A * State).

Section Monad.
Context `{HostTypes}.

Definition ret {A} (a : A) : M A := fun st => Ok (a, st).

Definition bind {A B} (c : M A) (k : A -> M B) : M B :=
  fun st =>
    match c st with
    | Ok (a, st') => k a st'
    | Throw e => Throw e
    end.

Definition throw {A} (e : string) : M A := fun _ => Throw e.

Definition gets {A} (f : State -> A) : M A := fun st => Ok (f st, st).

Definition modify (f : State -> State) : M unit := fun st => Ok (tt, f st).

Definition when (b : bool) (c : M unit) : M unit :=
  if b then c else ret tt.

(** [returns c st Q]: from [st] the computation [c] completes without a
    throw, and its result and final state satisfy [Q]. *)
Definition returns {A} (c : M A) (st : State) (Q : A -> State -> Prop)
  : Prop :=
  exists a st', c st = Ok (a, st') /\ Q a st'.
End Monad.

Declare Scope js_scope.
Delimit Scope js_scope with js.
Notation "x <- c ;; k" := (bind c (fun x => k))
  (at level 100, c at next level, right associativity) : js_scope.
Notation "c ;; k" := (bind c (fun _ => k))
  (at level 100, right associativity) : js_scope.

(** ** Field updates *)

Section Updates.
Context `{HostTypes}.

Definition set_nodes (f : Nodes -> Nodes) (st : State) : State :=
  let t := tool st in
  mkState (mkTool (pageLinks t) (linkElements t) (f (nodes t))
                  (selection t) (inputOpened t))
          (browser st) (existingLinks st) (effects st).

Definition set_pageLinks (l : list Page) (st : State) : State :=
  let t := tool st in
  mkState (mkTool l (linkElements t) (nodes t) (selection t) (inputOpened t))
          (browser st) (existingLinks st) (effects st).

Definition set_linkElements (l : list Li) (st : State) : State :=
  let t := tool st in
  mkState (mkTool (pageLinks t) l (nodes t) (selection t) (inputOpened t))
          (browser st) (existingLinks st) (effects st).

Definition set_selection (g : SelectionUtils) (st : State) : State :=
  let t := tool st in
  mkState (mkTool (pageLinks t) (linkElements t) (nodes t) g (inputOpened t))
          (browser st) (existingLinks st) (effects st).

Definition set_inputOpened (b : bool) (st : State) : State :=
  let t := tool st in
  mkState (mkTool (pageLinks t) (linkElements t) (nodes t) (selection t) b)
          (browser st) (existingLinks st) (effects st).

Definition set_browser (b : Browser) (st : State) : State :=
  mkState (tool st) b (existingLinks st) (effects st).

Definition set_existingLinks (v : option jsstring) (st : State) : State :=
  mkState (tool st) (browser st) v (effects st).

(** Record one more outgoing call. *)
Definition emit (e : Effect) (st : State) : State :=
  mkState (tool st) (browser st) (existingLinks st) (effects st ++ [e]).

Definition with_button_unlink (b : bool) (n : Nodes) : Nodes :=
  mkNodes b (button_active n) (input_value n) (input_showed n)
          (div_showed n) (searchInput_value n).
Definition with_button_active (b : bool) (n : Nodes) : Nodes :=
  mkNodes (button_unlink n) b (input_value n) (input_showed n)
          (div_showed n) (searchInput_value n).
Definition with_input_value (v : jsstring) (n : Nodes) : Nodes :=
  mkNodes (button_unlink n) (button_active n) v (input_showed n)
          (div_showed n) (searchInput_value n).
(** [nodes.input.value = v]: the input, created without a type and so a
    text input, stores the sanitized value. *)
Definition assign_input_value (v : jsstring) (n : Nodes) : Nodes :=
  with_input_value (stripNewlines v) n.
Definition with_input_showed (b : bool) (n : Nodes) : Nodes :=
  mkNodes (button_unlink n) (button_active n) (input_value n) b
          (div_showed n) (searchInput_value n).
Definition with_div_showed (b : bool) (n : Nodes) : Nodes :=
  mkNodes (button_unlink n) (button_active n) (input_value n)
          (input_showed n) b (searchInput_value n).
Definition with_searchInput_value (v : jsstring) (n : Nodes) : Nodes :=
  mkNodes (button_unlink n) (button_active n) (input_value n)
          (input_showed n) (div_showed n) v.

Definition with_selected (b : bool) (li : Li) : Li := mkLi (li_each li) b.
End Updates.

(** ** The selection guard, operation by operation *)

Module Selection.
Section Guard.
Context `{Host}.

(** Modelled from the spec: [new SelectionUtils()] of the missing
    [components/selection]; a fresh guard stores no snapshot and shows no
    fake highlight. *)
Definition new : SelectionUtils := mkSelectionUtils None false.

(** Modelled from the spec: [save] of the missing [components/selection]
    captures the live selection into the snapshot, overwriting any prior
    one, and does nothing when there is no live selection. *)
Definition save (g : SelectionUtils) (b : Browser) : SelectionUtils :=
  match live b with
  | Some r => mkSelectionUtils (Some r) (isFakeBackgroundEnabled g)
  | None => g
  end.

(** Modelled from the spec: [restore] of the missing
    [components/selection] re-applies the stored snapshot as the live
    selection, and does nothing when no snapshot is stored. *)
Definition restore (g : SelectionUtils) (b : Browser) : Browser :=
  match savedSelectionRange g with
  | Some r => mkBrowser (Some r) (dom b)
  | None => b
  end.

(** Modelled from the spec: [setFakeBackground] of the missing
    [components/selection] renders the placeholder over the live
    selection and sets the flag. *)
Definition setFakeBackground (g : SelectionUtils) (b : Browser)
  : SelectionUtils * Browser :=
  (mkSelectionUtils (savedSelectionRange g) true, paintFake b).

(** Modelled from the spec: [removeFakeBackground] of the missing
    [components/selection] clears the placeholder and the flag, and does
    nothing when no fake background is active. *)
Definition removeFakeBackground (g : SelectionUtils) (b : Browser)
  : SelectionUtils * Browser :=
  if isFakeBackgroundEnabled g
  then (mkSelectionUtils (savedSelectionRange g) false, unpaintFake b)
  else (g, b).

(** Modelled from the spec: [clearSaved] of the missing
    [components/selection] discards the stored snapshot. *)
Definition clearSaved (g : SelectionUtils) : SelectionUtils :=
  mkSelectionUtils None (isFakeBackgroundEnabled g).

(** Modelled from the spec: [findParentTag] of the missing
    [components/selection] returns the nearest ancestor element of the
    live selection's anchor matching the tag name, or none. *)
Definition findParentTag (tagName : string) (b : Browser) : option Element :=
  match live b with
  | Some r => ancestor tagName (dom b) r
  | None => None
  end.

(** Modelled from the spec: [expandToTag] of the missing
    [components/selection] widens the live selection to cover exactly the
    element's contents. *)
Definition expandToTag (element : Element) (b : Browser) : Browser :=
  mkBrowser (Some (contentsOf (dom b) element)) (dom b).

(** Modelled from the spec: [collapseToEnd] of the missing
    [components/selection] collapses the live selection to its end
    boundary. *)
Definition collapseToEnd (b : Browser) : Browser :=
  mkBrowser (option_map endOf (live b)) (dom b).
End Guard.
End Selection.

(** ** The methods of [LinkInlineTool] *)

Definition commandLink : string := "createLink".
Definition commandUnlink : string := "unlink".
Definition ENTER_KEY : N := 13.

Section Methods.
Context `{Host}.
Local Open Scope js_scope.

(** *** [this.selection] and the document *)

Definition selection_save : M unit :=
  modify (fun st =>
    set_selection (Selection.save (selection (tool st)) (browser st)) st).

Definition selection_restore : M unit :=
  modify (fun st =>
    set_browser (Selection.restore (selection (tool st)) (browser st)) st).

Definition selection_setFakeBackground : M unit :=
  modify (fun st =>
    let gb := Selection.setFakeBackground (selection (tool st)) (browser st) in
    set_browser (snd gb) (set_selection (fst gb) st)).

Definition selection_removeFakeBackground : M unit :=
  modify (fun st =>
    let gb :=
      Selection.removeFakeBackground (selection (tool st)) (browser st) in
    set_browser (snd gb) (set_selection (fst gb) st)).

Definition selection_clearSaved : M unit :=
  modify (fun st =>
    set_selection (Selection.clearSaved (selection (tool st))) st).

Definition selection_findParentTag (tagName : string) : M (option Element) :=
  gets (fun st => Selection.findParentTag tagName (browser st)).

Definition selection_expandToTag (element : Element) : M unit :=
  modify (fun st =>
    set_browser (Selection.expandToTag element (browser st)) st).

Definition selection_collapseToEnd : M unit :=
  modify (fun st => set_browser (Selection.collapseToEnd (browser st)) st).

(** [document.execCommand(command, false, value)]. *)
Definition document_exec (command : string) (value : option jsstring)
  : M unit :=
  modify (fun st =>
    emit (document_execCommand command value)
         (set_browser (execCommand command value (browser st)) st)).

Definition call (e : Effect) : M unit := modify (emit e).

(** *** [renderList] *)

(** One fresh [<li>] per entry, in the order of the entries. *)
Definition rendered (pages : list Page) : list Li :=
  map (fun each => mkLi each false) pages.

(** Empties [nodes.ul], then appends the fresh elements and collects them
    in [linkElements]. *)
Definition renderList (pages : list Page) : M unit :=
  modify (set_linkElements (rendered pages)).

(** *** [render] and [renderActions] *)

(** A new button, with the classes [CSS.button] and [CSS.buttonModifier]
    only. *)
Definition render : M unit :=
  modify (set_nodes (fun n =>
    with_button_active false (with_button_unlink false n))).

(** [window.localStorage.existingLinks ? JSON.parse(...) : []] *)
Definition readExistingLinks : M (list Page) :=
  stored <- gets existingLinks ;;
  match stored with
  | None => ret []
  | Some [] => ret []
  | Some text =>
      match JSON_parse text with
      | Some pages => ret pages
      | None => throw "SyntaxError"
      end
  end.

(** The listener of [keyup] on the search input. *)
Definition searchInput_keyup : M unit :=
  value <- gets (fun st => searchInput_value (nodes (tool st))) ;;
  pages <- gets (fun st => pageLinks (tool st)) ;;
  if truthyNumber (JS.length (trim value))
  then
    let filtertedList :=
      List.filter
        (fun each => includes (toLocaleLowerCase (name each)) (trim value))
        pages in
    renderList filtertedList
  else renderList pages.

Definition renderActions : M unit :=
  pages <- readExistingLinks ;;
  modify (set_pageLinks pages) ;;
  (* new div, header, ul and search input *)
  modify (set_nodes (fun n =>
    with_div_showed false (with_searchInput_value [] n))) ;;
  pages <- gets (fun st => pageLinks (tool st)) ;;
  renderList pages ;;
  (* new URL input *)
  modify (set_nodes (fun n =>
    with_input_showed false (with_input_value [] n))).

(** *** [openActions], [closeActions], [toggleActions] *)

Definition openActions (needFocus : bool) : M unit :=
  modify (set_nodes (with_div_showed true)) ;;
  modify (set_nodes (with_input_showed true)) ;;
  when needFocus
    (modify (fun st => emit input_focus
                         (set_browser (focusInput (browser st)) st))) ;;
  modify (set_inputOpened true).

Definition closeActions (clearSavedSelection : bool) : M unit :=
  fake <- gets (fun st => isFakeBackgroundEnabled (selection (tool st))) ;;
  when fake
    ((* if actions is broken by other selection we need to save new
        selection *)
     currentSelection <-
       gets (fun st => Selection.save Selection.new (browser st)) ;;
     selection_restore ;;
     selection_removeFakeBackground ;;
     (* and recover new selection after removing fake background *)
     modify (fun st =>
       set_browser (Selection.restore currentSelection (browser st)) st)) ;;
  modify (set_nodes (with_input_showed false)) ;;
  modify (set_nodes (with_div_showed false)) ;;
  modify (set_nodes (assign_input_value [])) ;;
  when clearSavedSelection selection_clearSaved ;;
  modify (set_inputOpened false).

Definition toggleActions : M unit :=
  opened <- gets (fun st => inputOpened (tool st)) ;;
  if negb opened then openActions true else closeActions false.

(** *** [unlink] and [insertLink] *)

Definition unlink : M unit := document_exec commandUnlink None.

Definition insertLink (link : jsstring) : M unit :=
  anchorTag <- selection_findParentTag "A" ;;
  match anchorTag with
  | Some a => selection_expandToTag a
  | None => ret tt
  end ;;
  document_exec commandLink (Some link).

(** *** [checkState] *)

(** [page.url === hrefAttr], where [hrefAttr] may be [null]. *)
Definition url_is (page : Page) (hrefAttr : option jsstring) : bool :=
  match hrefAttr with
  | Some h => JS.eqb (url page) h
  | None => false
  end.

(** [hrefAttr !== 'null'] *)
Definition notNullWord (hrefAttr : option jsstring) : bool :=
  match hrefAttr with
  | Some h => negb (JS.eqb h (lit "null"))
  | None => true
  end.

(** A value on its way into [input.value]: [null] counts as the empty
    string. *)
Definition toValue (v : option jsstring) : jsstring :=
  match v with
  | Some s => s
  | None => []
  end.

(** [this.pageLinks.forEach((page, index) => ...)] from [index] on; the
    class list of [this.linkElements[index]] gains or loses
    ['selected-item'], and an index without element is a [TypeError]. *)
Fixpoint markPages (hrefAttr : option jsstring) (pages : list Page)
    (index : nat) : M unit :=
  match pages with
  | [] => ret tt
  | page :: rest =>
      elements <- gets (fun st => linkElements (tool st)) ;;
      match elements !! index with
      | Some li =>
          modify (set_linkElements
                    (<[index := with_selected (url_is page hrefAttr) li]>
                       elements))
      | None => throw "TypeError"
      end ;;
      markPages hrefAttr rest (S index)
  end.

(** [this.linkElements.forEach((item) => item.classList.remove(...))] *)
Definition unmarkAll : M unit :=
  modify (fun st =>
    set_linkElements (map (with_selected false) (linkElements (tool st))) st).

Definition checkState : M bool :=
  modify (set_nodes (with_searchInput_value [])) ;;
  pages <- gets (fun st => pageLinks (tool st)) ;;
  renderList pages ;;
  anchorTag <- selection_findParentTag "A" ;;
  match anchorTag with
  | Some a =>
      modify (set_nodes (with_button_unlink true)) ;;
      modify (set_nodes (with_button_active true)) ;;
      openActions false ;;
      let hrefAttr := getAttribute a "href" in
      modify (set_nodes (assign_input_value
        (toValue (if notNullWord hrefAttr then hrefAttr else Some [])))) ;;
      (if notNullWord hrefAttr
       then pages <- gets (fun st => pageLinks (tool st)) ;;
            markPages hrefAttr pages 0
       else unmarkAll) ;;
      selection_save ;;
      ret true
  | None =>
      modify (set_nodes (with_button_unlink false)) ;;
      modify (set_nodes (with_button_active false)) ;;
      unmarkAll ;;
      ret false
  end.

(** *** [clear] *)

Definition clear : M unit := closeActions true.

(** *** [surround] *)

(** [range] is [None] for the [null] the host passes on a second click. *)
Definition surround (range : option Range) : M unit :=
  unlinked <-
    match range with
    | Some _ =>
        opened <- gets (fun st => inputOpened (tool st)) ;;
        (if negb opened
         then selection_setFakeBackground ;; selection_save
         else selection_restore ;; selection_removeFakeBackground) ;;
        parentAnchor <- selection_findParentTag "A" ;;
        match parentAnchor with
        | Some a =>
            selection_expandToTag a ;;
            unlink ;;
            closeActions true ;;
            _ <- checkState ;;
            call toolbar_close ;;
            ret true
        | None => ret false
        end
    | None => ret false
    end ;;
  if (unlinked : bool) then ret tt else toggleActions.

(** *** [enterPressed] *)

(** The submitted value: the clicked entry's url, or the text of the URL
    input ([this.nodes.input.value || '']). *)
Definition submitted (isExisting : bool) (data : jsstring) (st : State)
  : jsstring :=
  if isExisting then data
  else
    let typed := input_value (nodes (tool st)) in
    if truthy typed then typed else [].

Definition enterPressed (isExisting : bool) (data : jsstring) : M unit :=
  value <- gets (submitted isExisting data) ;;
  when (negb (truthy (trim value)))
    (selection_restore ;;
     unlink ;;
     call event_preventDefault ;;
     closeActions true) ;;
  if negb (validateURL value)
  then
    call (notifier_show "Pasted link is not valid." "error") ;;
    call (utils_log "Incorrect Link pasted" "warn" value)
  else
    let value := prepareLink value in
    selection_restore ;;
    selection_removeFakeBackground ;;
    insertLink value ;;
    call event_preventDefault ;;
    call event_stopPropagation ;;
    call event_stopImmediatePropagation ;;
    selection_collapseToEnd ;;
    call inlineToolbar_close.

(** The [keydown] listener of the URL input. *)
Definition input_keydown (keyCode : N) : M unit :=
  when (N.eqb keyCode ENTER_KEY) (enterPressed false []).

(** The [click] listener of a list element. *)
Definition li_click (li : Li) : M unit :=
  enterPressed true (url (li_each li)).

End Methods.

(** ** A sample host

    A page of numbered text spans, some of them wrapped in an anchor, on
    which the methods can be run. *)

Module Sample.

#[export] Instance types : HostTypes :=
  {| Range := nat; Element := nat * option jsstring;
     Dom := list (nat * option jsstring) |}.

(** The anchor around a span, if any. *)
Fixpoint anchorOf (d : list (nat * option jsstring)) (r : nat)
  : option (nat * option jsstring) :=
  match d with
  | [] => None
  | a :: d' => if Nat.eqb (fst a) r then Some a else anchorOf d' r
  end.

Definition removeAnchor (d : list (nat * option jsstring)) (r : nat)
  : list (nat * option jsstring) :=
  List.filter (fun a => negb (Nat.eqb (fst a) r)) d.

Definition exec (command : string) (value : option jsstring) (b : Browser)
  : Browser :=
  match live b with
  | None => b
  | Some r =>
      if String.eqb command "unlink"
      then mkBrowser (live b) (removeAnchor (dom b) r)
      else if String.eqb command "createLink"
      then mkBrowser (live b) ((r, value) :: removeAnchor (dom b) r)
      else b
  end.

Definition lowerUnit (c : N) : N :=
  if (65 <=? c) && (c <=? 90) then c + 32 else c.

Definition quoted (s : string) : jsstring := [34] ++ lit s ++ [34].

(** The JSON text of the one-entry list holding [Home]. *)
Definition homeJSON : jsstring :=
  lit "[{" ++ quoted "name" ++ lit ":" ++ quoted "Home" ++ lit ","
      ++ quoted "url" ++ lit ":" ++ quoted "/" ++ lit "}]".

(** [JSON.parse] on the two texts used below. *)
Definition parse (text : jsstring) : option (list Page) :=
  if JS.eqb text (lit "[]") then Some []
  else if JS.eqb text homeJSON then Some [Home]
  else None.

#[export] Instance host : Host :=
  {| ancestor := fun tag d r =>
       if String.eqb tag "A" then anchorOf d r else None;
     getAttribute := fun e attr =>
       if String.eqb attr "href" then snd e else None;
     contentsOf := fun _ e => fst e;
     endOf := fun r => r;
     execCommand := exec;
     paintFake := fun b => b;
     unpaintFake := fun b => b;
     focusInput := fun b => mkBrowser None (dom b);
     toLocaleLowerCase := map lowerUnit;
     JSON_parse := parse |}.

Definition blankNodes : Nodes := mkNodes false false [] false false [].

(** A freshly constructed and rendered tool over a document. *)
Definition fresh (pages : list Page) (sel : option nat)
    (d : list (nat * option jsstring)) : State :=
  mkState (mkTool pages (map (fun each => mkLi each false) pages)
                  blankNodes Selection.new false)
          (mkBrowser sel d) None [].

(** The user typing into the URL input and into the search input. *)
Definition typeInput (v : jsstring) (st : State) : State :=
  set_nodes (with_input_value v) st.
Definition typeSearch (v : jsstring) (st : State) : State :=
  set_nodes (with_searchInput_value v) st.

(** Run a method and keep the state; a throw keeps the old state. *)
Definition after {A} (c : M A) (st : State) : State :=
  match c st with
  | Ok (_, st') => st'
  | Throw _ => st
  end.

(** The panel opened by a click on the icon, with span 1 selected and no
    link around it. *)
Definition opened : State :=
  after (surround (Some 1%nat)) (fresh [Home; About] (Some 1%nat) []).

(** A closed panel while the selected span 1 sits in a link to [/]. *)
Definition onLink : State :=
  fresh [Home; About] (Some 1%nat) [(1%nat, Some (lit "/"))].

(** A closed panel while span 1 sits in a link whose href holds a line
    feed. *)
Definition onBrokenLink : State :=
  fresh [Home; About] (Some 1%nat)
        [(1%nat, Some (lit "/a" ++ [10] ++ lit "b"))].

(** The open panel with one space, with [bad url] and with [Ho] typed. *)
Definition blankTyped : State := typeInput (lit " ") opened.
Definition badTyped : State := typeInput (lit "bad url") opened.
Definition mixedCaseQuery : State := typeSearch (lit "Ho") opened.

(** The panel built while nothing is stored; the external list then
    gains [Home]. *)
Definition builtThenStored : State :=
  set_existingLinks (Some homeJSON)
    (after renderActions (fresh [] (Some 1%nat) [])).


(** The panel that [checkState] opened on the link around span 1. *)
Definition checked : State := after checkState onLink.

(** A closed tool with span 1 selected and no link in the document. *)
Definition plain : State := fresh [Home; About] (Some 1%nat) [].

(** The user selecting another span. *)
Definition select (r : option nat) (st : State) : State :=
  set_browser (mkBrowser r (dom (browser st))) st.

(** The open panel, after the user selected span 2 elsewhere. *)
Definition reselected : State := select (Some 2%nat) opened.
End Sample.

(** ** The normalisation rules, worded as a cascade

    [addProtocol] computes three flags and prefixes when none holds; the
    specification words the same decision as a list of rules tried in
    order.  [Rules.normalize] is that cascade, [Rules.normalize_stated] the
    variant whose fourth rule only asks for a non-slash character after
    the two slashes. *)

Module Rules.

(** What follows the leading run of word characters. *)
Fixpoint afterWord (s : jsstring) : jsstring :=
  match s with
  | c :: s' => if isWord c then afterWord s' else s
  | [] => []
  end.

(** Begins with a scheme (one or more word characters) and [://]. *)
Definition beginsWithScheme (s : jsstring) : bool :=
  match s with
  | c :: s' => isWord c && startsWith (afterWord s') (lit "://")
  | [] => false
  end.

(** Begins with a single [/] followed by a character that is neither a
    slash nor white space. *)
Definition beginsInternal (s : jsstring) : bool :=
  match s with
  | c1 :: c2 :: _ =>
      N.eqb c1 slash && negb (N.eqb c2 slash) && negb (isSpace c2)
  | _ => false
  end.

(** Begins with [#]. *)
Definition beginsAnchor (s : jsstring) : bool :=
  match s with
  | c :: _ => N.eqb c hash
  | [] => false
  end.

(** Begins with [//] followed by a character that is neither a slash nor
    white space. *)
Definition beginsProtocolRelative (s : jsstring) : bool :=
  match s with
  | c1 :: c2 :: c3 :: _ =>
      N.eqb c1 slash && N.eqb c2 slash
      && negb (N.eqb c3 slash) && negb (isSpace c3)
  | _ => false
  end.

(** Begins with [//] followed by a non-slash character. *)
Definition beginsProtocolRelative_stated (s : jsstring) : bool :=
  match s with
  | c1 :: c2 :: c3 :: _ =>
      N.eqb c1 slash && N.eqb c2 slash && negb (N.eqb c3 slash)
  | _ => false
  end.

Definition cascade (fourth : jsstring -> bool) (raw : jsstring) : jsstring :=
  let s := trim raw in
  if beginsWithScheme s then s
  else if beginsInternal s then s
  else if beginsAnchor s then s
  else if fourth s then s
  else lit "http://" ++ s.

Definition normalize : jsstring -> jsstring :=
  cascade beginsProtocolRelative.

Definition normalize_stated : jsstring -> jsstring :=
  cascade beginsProtocolRelative_stated.

End Rules.

(** ** Invariants of the tool state *)

Section Invariants.
Context `{HostTypes}.

(** A closed panel shows no fake highlight. *)
Definition noStrayHighlight (st : State) : Prop :=
  inputOpened (tool st) = false ->
  isFakeBackgroundEnabled (selection (tool st)) = false.

(** Every rendered list element stands for a stored page. *)
Definition listed (st : State) : Prop :=
  forall li, In li (linkElements (tool st)) ->
             In (li_each li) (pageLinks (tool st)).

(** The shown classes of the panel and of the URL input follow
    [inputOpened]. *)
Definition panelInSync (st : State) : Prop :=
  div_showed (nodes (tool st)) = inputOpened (tool st)
  /\ input_showed (nodes (tool st)) = inputOpened (tool st).
End Invariants.

Section Lookup.
Context `{Host}.

(** The browser at the moment [surround], called with a range, looks for
    the parent anchor: behind the fake highlight and the save when the
    panel is closed, behind the restore and the removal of the highlight
    when it is open. *)
Definition browserAtLookup (st : State) : Browser :=
  if inputOpened (tool st)
  then snd (Selection.removeFakeBackground (selection (tool st))
              (Selection.restore (selection (tool st)) (browser st)))
  else paintFake (browser st).

(** Whether [surround] takes the unlink shortcut. *)
Definition anchorAtLookup (range : option Range) (st : State)
  : option Element :=
  match range with
  | Some _ => Selection.findParentTag "A" (browserAtLookup st)
  | None => None
  end.
End Lookup.

Section EntryPoints.
Context `{Host}.

(** [Inv] holds after each method and listener that works on the built
    panel, started from [st]: none of them throws, and each ends in a
    state that satisfies [Inv]. *)
Definition holdsAfterEach (Inv : State -> Prop) (st : State) : Prop :=
  (forall range, returns (surround range) st (fun _ st' => Inv st'))
  /\ returns checkState st (fun _ st' => Inv st')
  /\ returns clear st (fun _ st' => Inv st')
  /\ (forall isExisting data,
        returns (enterPressed isExisting data) st (fun _ st' => Inv st'))
  /\ (forall keyCode,
        returns (input_keydown keyCode) st (fun _ st' => Inv st'))
  /\ (forall li, returns (li_click li) st (fun _ st' => Inv st'))
  /\ returns searchInput_keyup st (fun _ st' => Inv st')
  /\ returns render st (fun _ st' => Inv st').
End EntryPoints.

(** ** Facts about strings *)

Lemma eqb_eq (a b : jsstring) : JS.eqb a b = true <-> a = b.
Proof.
  revert b; induction a as [|x a IH]; intros [|y b]; simpl;
    try (split; congruence).
  rewrite andb_true_iff, N.eqb_eq, IH. split.
  - intros [-> ->]; reflexivity.
  - intros [= -> ->]; auto.
Qed.

Lemma eqb_refl (a : jsstring) : JS.eqb a a = true.
Proof. apply eqb_eq; reflexivity. Qed.

Lemma matchHere_nil (s : jsstring) : matchHere [] s = true.
Proof. destruct s; reflexivity. Qed.

Lemma search_space (s : jsstring) : search re_space s = existsb isSpace s.
Proof.
  induction s as [|c s IH]; [reflexivity|].
  cbn [search existsb]. rewrite IH. f_equal.
  cbn [re_space matchHere]. rewrite matchHere_nil. apply andb_true_r.
Qed.

Lemma validateURL_false (s : jsstring) :
  validateURL s = false <-> exists c, In c s /\ isSpace c = true.
Proof.
  unfold validateURL. rewrite search_space, negb_false_iff.
  apply existsb_exists.
Qed.

Lemma trimStart_noLead (s : jsstring) : noLead (trimStart s).
Proof.
  induction s as [|c s IH]; simpl; [exact I|].
  destruct (isSpace c) eqn:E; [exact IH | exact E].
Qed.

Lemma trimStart_id (s : jsstring) : noLead s -> trimStart s = s.
Proof. destruct s as [|c s]; simpl; [reflexivity | intros ->; reflexivity]. Qed.

Lemma trimStart_suffix (s : jsstring) : exists p, s = p ++ trimStart s.
Proof.
  induction s as [|c s [p IH]]; simpl; [exists []; reflexivity|].
  destruct (isSpace c).
  - exists (c :: p). simpl. congruence.
  - exists []. reflexivity.
Qed.

Lemma trimEnd_prefix (s : jsstring) : exists q, s = trimEnd s ++ q.
Proof.
  unfold trimEnd. destruct (trimStart_suffix (rev s)) as [p Hp].
  exists (rev p). rewrite <- rev_app_distr, <- Hp, rev_involutive.
  reflexivity.
Qed.

Lemma trimEnd_noLead (s : jsstring) : noLead s -> noLead (trimEnd s).
Proof.
  destruct (trimEnd_prefix s) as [q Hq]. intros Hs.
  destruct (trimEnd s) as [|c t]; [exact I|].
  rewrite Hq in Hs. exact Hs.
Qed.

Lemma trimEnd_noTrail (s : jsstring) : noLead (rev (trimEnd s)).
Proof.
  unfold trimEnd. rewrite rev_involutive. apply trimStart_noLead.
Qed.

Lemma trimEnd_id (s : jsstring) : noLead (rev s) -> trimEnd s = s.
Proof.
  intros Hs. unfold trimEnd. rewrite trimStart_id by exact Hs.
  apply rev_involutive.
Qed.

Lemma trim_noLead (s : jsstring) : noLead (trim s).
Proof. apply trimEnd_noLead, trimStart_noLead. Qed.

Lemma trim_noTrail (s : jsstring) : noLead (rev (trim s)).
Proof. apply trimEnd_noTrail. Qed.

Lemma trim_id (s : jsstring) : noLead s -> noLead (rev s) -> trim s = s.
Proof.
  intros H1 H2. unfold trim. rewrite (trimStart_id s H1).
  apply trimEnd_id, H2.
Qed.

Lemma trim_trim (s : jsstring) : trim (trim s) = trim s.
Proof. apply trim_id; [apply trim_noLead | apply trim_noTrail]. Qed.

(** ** The regular expressions against the worded rules *)

Lemma isWord_not_colon (c : N) : isWord c = true -> N.eqb colon c = false.
Proof.
  intros Hw. apply N.eqb_neq. intros <-. discriminate Hw.
Qed.

Lemma matchHere_colon_slashes (s : jsstring) :
  matchHere [chr colon; chr slash; chr slash] s = startsWith s (lit "://").
Proof.
  unfold lit.
  destruct s as [|c1 [|c2 [|c3 s]]]; cbn [matchHere chr startsWith map
    list_ascii_of_string]; rewrite ?matchHere_nil, ?andb_true_r, ?andb_false_r;
    try reflexivity;
    change (N_of_ascii ":") with colon; change (N_of_ascii "/") with slash;
    rewrite ?(N.eqb_sym colon), ?(N.eqb_sym slash); reflexivity.
Qed.

Lemma matchHere_afterWord (s : jsstring) :
  matchHere [chr colon; chr slash; chr slash] s || matchHere re_protocol s
  = startsWith (Rules.afterWord s) (lit "://").
Proof.
  induction s as [|c s IH]; [reflexivity|].
  cbn [Rules.afterWord]. destruct (isWord c) eqn:Hw.
  - rewrite <- IH.
    change (matchHere re_protocol (c :: s)) with
      (isWord c && (matchHere [chr colon; chr slash; chr slash] s
                    || matchHere re_protocol s)).
    rewrite Hw. cbn [andb].
    cbn [matchHere chr]. rewrite (isWord_not_colon c Hw). reflexivity.
  - change (matchHere re_protocol (c :: s)) with
      (isWord c && (matchHere [chr colon; chr slash; chr slash] s
                    || matchHere re_protocol s)).
    rewrite Hw. cbn [andb]. rewrite orb_false_r.
    apply matchHere_colon_slashes.
Qed.

Lemma test_protocol (s : jsstring) :
  test re_protocol s = Rules.beginsWithScheme s.
Proof.
  unfold test. destruct s as [|c s]; [reflexivity|].
  cbn [Rules.beginsWithScheme]. rewrite <- matchHere_afterWord. reflexivity.
Qed.

Lemma test_internal (s : jsstring) :
  test re_internal s = Rules.beginsInternal s.
Proof.
  unfold test, re_internal. destruct s as [|c1 [|c2 s]];
    cbn [matchHere chr Rules.beginsInternal];
    rewrite ?matchHere_nil, ?andb_true_r, ?andb_false_r; try reflexivity.
  unfold notSlashSpace. rewrite (N.eqb_sym slash c1), andb_assoc. reflexivity.
Qed.

Lemma test_protocolRelative (s : jsstring) :
  test re_protocolRelative s = Rules.beginsProtocolRelative s.
Proof.
  unfold test, re_protocolRelative. destruct s as [|c1 [|c2 [|c3 s]]];
    cbn [matchHere chr Rules.beginsProtocolRelative];
    rewrite ?matchHere_nil, ?andb_true_r, ?andb_false_r; try reflexivity.
  unfold notSlashSpace.
  rewrite (N.eqb_sym slash c1), (N.eqb_sym slash c2), !andb_assoc.
  reflexivity.
Qed.

Lemma substring_anchor (s : jsstring) :
  JS.eqb (substring01 s) (lit "#") = Rules.beginsAnchor s.
Proof.
  destruct s as [|c s]; [reflexivity|].
  unfold lit. cbn. rewrite andb_true_r. reflexivity.
Qed.

Lemma addProtocol_cascade (s : jsstring) :
  addProtocol s =
    if Rules.beginsWithScheme s then s
    else if Rules.beginsInternal s then s
    else if Rules.beginsAnchor s then s
    else if Rules.beginsProtocolRelative s then s
    else lit "http://" ++ s.
Proof.
  unfold addProtocol.
  rewrite test_protocol, test_internal, test_protocolRelative, substring_anchor.
  destruct (Rules.beginsWithScheme s), (Rules.beginsInternal s),
    (Rules.beginsAnchor s), (Rules.beginsProtocolRelative s); reflexivity.
Qed.

(** A string that [addProtocol] leaves alone is left alone again. *)
Lemma addProtocol_prefixed (s : jsstring) :
  test re_protocol (lit "http://" ++ s) = true.
Proof.
  unfold test, re_protocol, lit.
  cbn [map list_ascii_of_string app matchHere chr].
  rewrite matchHere_nil. reflexivity.
Qed.

Lemma trim_prefixed (s : jsstring) :
  trim (lit "http://" ++ trim s) = lit "http://" ++ trim s.
Proof.
  apply trim_id; [reflexivity|].
  rewrite rev_app_distr.
  pose proof (trim_noTrail s) as Ht.
  destruct (rev (trim s)) as [|c t]; [reflexivity | exact Ht].
Qed.

Lemma addProtocol_cases (s : jsstring) :
  addProtocol s = s \/ addProtocol s = lit "http://" ++ s.
Proof.
  unfold addProtocol. destruct (test re_protocol s); [left; reflexivity|].
  destruct (negb (test re_internal s)
            && negb (JS.eqb (substring01 s) (lit "#"))
            && negb (test re_protocolRelative s)); [right | left]; reflexivity.
Qed.

Lemma addProtocol_scheme (s : jsstring) :
  test re_protocol s = true -> addProtocol s = s.
Proof. intros Hp. unfold addProtocol. rewrite Hp. reflexivity. Qed.

Lemma prepareLink_idempotent (s : jsstring) :
  prepareLink (prepareLink s) = prepareLink s.
Proof.
  unfold prepareLink.
  destruct (addProtocol_cases (trim s)) as [E | E].
  - rewrite E, trim_trim, E. reflexivity.
  - rewrite E, trim_prefixed.
    apply addProtocol_scheme, addProtocol_prefixed.
Qed.

(** ** Reasoning about the methods *)

Section Returns.
Context `{HostTypes}.

Lemma returns_ret {A} (a : A) st (Q : A -> State -> Prop) :
  Q a st -> returns (ret a) st Q.
Proof. intros HQ. exists a, st. auto. Qed.

Lemma returns_gets {A} (f : State -> A) st (Q : A -> State -> Prop) :
  Q (f st) st -> returns (gets f) st Q.
Proof. intros HQ. exists (f st), st. auto. Qed.

Lemma returns_modify (f : State -> State) st (Q : unit -> State -> Prop) :
  Q tt (f st) -> returns (modify f) st Q.
Proof. intros HQ. exists tt, (f st). auto. Qed.

Lemma returns_bind {A B} (c : M A) (k : A -> M B) st
    (Q : B -> State -> Prop) :
  returns c st (fun a st' => returns (k a) st' Q) ->
  returns (bind c k) st Q.
Proof.
  intros (a & st' & Hc & b & st'' & Hk & HQ).
  exists b, st''. unfold bind. rewrite Hc. auto.
Qed.

Lemma returns_weaken {A} (c : M A) st (P Q : A -> State -> Prop) :
  returns c st P -> (forall a st', P a st' -> Q a st') -> returns c st Q.
Proof. intros (a & st' & Hc & HP) HPQ. exists a, st'. auto. Qed.

Lemma returns_unit (c : M unit) st (Q : State -> Prop) :
  returns c st (fun _ st' => Q st') ->
  exists st', c st = Ok (tt, st') /\ Q st'.
Proof. intros ([] & st' & Hc & HQ). exists st'. auto. Qed.

End Returns.

Ltac head_of t :=
  lazymatch t with
  | ?f _ => head_of f
  | _ => t
  end.

(** One step of a method: a bind, a primitive, or a case distinction on
    the condition the source branches on. *)
Ltac step :=
  lazymatch goal with
  | |- returns (bind _ _) _ _ => apply returns_bind
  | |- returns (ret _) _ _ => apply returns_ret
  | |- returns (gets _) _ _ => apply returns_gets
  | |- returns (modify _) _ _ => apply returns_modify
  | |- returns (call _) _ _ => apply returns_modify
  | |- returns (when ?b _) _ _ => unfold when
  | |- returns (if ?b then _ else _) _ _ => destruct b eqn:?
  | |- returns (match ?x with _ => _ end) _ _ => destruct x eqn:?
  | |- returns ?c _ _ =>
      let h := head_of c in unfold h
  end; cbn beta.

Ltac steps := repeat step.

Section Submit.
Context `{Host}.

(** C1 (amended): a submitted value that fails validation and is not
    made of white space only shows the notification
    [Pasted link is not valid.] and aborts: the tool (panel state, URL
    input, saved selection) and the browser are as before, and nothing
    but the notification and the warning in the log is issued, so no
    unlink and no link insertion. *)
Theorem enterPressed_invalid_aborts (st : State) (isExisting : bool)
    (data : jsstring) :
  validateURL (submitted isExisting data st) = false ->
  truthy (trim (submitted isExisting data st)) = true ->
  exists st',
    enterPressed isExisting data st = Ok (tt, st')
    /\ tool st' = tool st
    /\ browser st' = browser st
    /\ existingLinks st' = existingLinks st
    /\ effects st' =
         effects st ++
           [notifier_show "Pasted link is not valid." "error";
            utils_log "Incorrect Link pasted" "warn"
                      (submitted isExisting data st)].
Proof.
  intros Hv Ht. apply returns_unit.
  unfold enterPressed. step. step.
  rewrite Ht, Hv. cbn [negb].
  steps. cbn. rewrite <- app_assoc. auto 6.
Qed.

(** What an empty submit does, call by call. *)
Lemma enterPressed_empty (st : State) (isExisting : bool) (data : jsstring) :
  submitted isExisting data st = [] ->
  exists st',
    enterPressed isExisting data st = Ok (tt, st')
    /\ inputOpened (tool st') = false
    /\ effects st' =
         effects st ++
           [document_execCommand commandUnlink None;
            event_preventDefault;
            document_execCommand commandLink (Some (lit "http://"));
            event_preventDefault;
            event_stopPropagation;
            event_stopImmediatePropagation;
            inlineToolbar_close].
Proof.
  intros Hv. apply returns_unit.
  unfold enterPressed. step. step. rewrite Hv.
  change (trim []) with (@nil N). change (validateURL []) with true.
  cbn [truthy negb].
  steps; cbn; rewrite <- ?app_assoc; auto.
Qed.

(** What a submit of white space only does, call by call. *)
Lemma enterPressed_blank (st : State) (isExisting : bool) (data : jsstring) :
  truthy (trim (submitted isExisting data st)) = false ->
  validateURL (submitted isExisting data st) = false ->
  exists st',
    enterPressed isExisting data st = Ok (tt, st')
    /\ inputOpened (tool st') = false
    /\ effects st' =
         effects st ++
           [document_execCommand commandUnlink None;
            event_preventDefault;
            notifier_show "Pasted link is not valid." "error";
            utils_log "Incorrect Link pasted" "warn"
                      (submitted isExisting data st)].
Proof.
  intros Ht Hv. apply returns_unit.
  unfold enterPressed. step. step. rewrite Ht, Hv. cbn [negb].
  steps; cbn; rewrite <- ?app_assoc; auto.
Qed.

Lemma trimStart_nil (s : jsstring) :
  trimStart s = [] -> forall c, In c s -> isSpace c = true.
Proof.
  induction s as [|x s IH]; cbn; [tauto|].
  destruct (isSpace x) eqn:E; [|discriminate].
  intros Hs c [<- | Hc]; auto.
Qed.

Lemma trim_nil (s : jsstring) :
  trim s = [] -> forall c, In c s -> isSpace c = true.
Proof.
  unfold trim, trimEnd. intros Hs.
  assert (Hr : trimStart (rev (trimStart s)) = []).
  { rewrite <- (rev_involutive (trimStart _)), Hs. reflexivity. }
  assert (Hn : trimStart s = []).
  { pose proof (trimStart_noLead s) as Hl.
    destruct (trimStart s) as [|x t]; [reflexivity|].
    cbn in Hl. rewrite (trimStart_nil _ Hr x) in Hl; [discriminate|].
    apply in_rev. rewrite rev_involutive. left; reflexivity. }
  apply trimStart_nil, Hn.
Qed.

Lemma blank_invalid (s : jsstring) :
  truthy s = true -> truthy (trim s) = false -> validateURL s = false.
Proof.
  intros Hs Ht. apply validateURL_false.
  destruct s as [|c s]; [discriminate|].
  exists c. split; [left; reflexivity|].
  apply (trim_nil (c :: s)); [|left; reflexivity].
  destruct (trim (c :: s)); [reflexivity | discriminate].
Qed.

(** C2 (the code at the failing input): a submit whose value is the empty
    string restores, unlinks, suppresses the default action and closes
    the panel, and then goes on: the value passes validation, is
    normalised to [http://], and a link to it is inserted before the
    inline toolbar is closed. *)
Theorem enterPressed_empty_inserts_link (st : State) (isExisting : bool)
    (data : jsstring) :
  submitted isExisting data st = [] ->
  exists st',
    enterPressed isExisting data st = Ok (tt, st')
    /\ inputOpened (tool st') = false
    /\ In (document_execCommand commandLink (Some (lit "http://")))
          (effects st')
    /\ effects st' =
         effects st ++
           [document_execCommand commandUnlink None;
            event_preventDefault;
            document_execCommand commandLink (Some (lit "http://"));
            event_preventDefault;
            event_stopPropagation;
            event_stopImmediatePropagation;
            inlineToolbar_close].
Proof.
  intros Hv. destruct (enterPressed_empty st isExisting data Hv)
    as (st' & Hrun & Hclosed & Heff).
  exists st'. repeat split; auto.
  rewrite Heff. apply in_or_app. right. cbn. auto.
Qed.

(** C10: [validateURL] accepts the empty string and rejects exactly the
    strings holding a white-space character; so a submit of the empty
    string never shows the invalid-link notification, while a submit of a
    non-empty value made of white space only fails validation and shows
    it, after the unlink of the empty branch. *)
Theorem validateURL_empty_and_blank_submit (st : State) (isExisting : bool)
    (data : jsstring) :
  let value := submitted isExisting data st in
  validateURL [] = true
  /\ (forall s, validateURL s = false <->
                exists c, In c s /\ isSpace c = true)
  /\ (value = [] ->
      exists st' added,
        enterPressed isExisting data st = Ok (tt, st')
        /\ effects st' = effects st ++ added
        /\ forall message style, ~ In (notifier_show message style) added)
  /\ (truthy value = true -> truthy (trim value) = false ->
      validateURL value = false
      /\ exists st',
           enterPressed isExisting data st = Ok (tt, st')
           /\ effects st' =
                effects st ++
                  [document_execCommand commandUnlink None;
                   event_preventDefault;
                   notifier_show "Pasted link is not valid." "error";
                   utils_log "Incorrect Link pasted" "warn" value]).
Proof.
  intros value. split; [reflexivity|]. split; [exact validateURL_false|].
  split.
  - intros Hv. destruct (enterPressed_empty st isExisting data Hv)
      as (st' & Hrun & _ & Heff).
    eexists st', _. split; [exact Hrun|]. split; [exact Heff|].
    intros message style Hin. cbn in Hin.
    repeat (destruct Hin as [Hin | Hin]; [discriminate Hin|]). exact Hin.
  - intros Hs Ht. pose proof (blank_invalid value Hs Ht) as Hv.
    split; [exact Hv|].
    destruct (enterPressed_blank st isExisting data Ht Hv)
      as (st' & Hrun & _ & Heff).
    exists st'. auto.
Qed.
End Submit.

Section Panel.
Context `{Host}.

Lemma set_linkElements_same (st : State) :
  set_linkElements (linkElements (tool st)) st = st.
Proof. destruct st as [[] ? ? ?]. reflexivity. Qed.

(** On a list rendered from the pages, the loop of [checkState] finds an
    element under every index and marks the entries whose url is the
    href. *)
Lemma markPages_rendered (hrefAttr : option jsstring) (pages : list Page) :
  forall (done : list Li) (st : State),
    linkElements (tool st) = done ++ rendered pages ->
    markPages hrefAttr pages (List.length done) st =
      Ok (tt, set_linkElements
                (done ++ map (fun p => mkLi p (url_is p hrefAttr)) pages) st).
Proof.
  induction pages as [|page rest IH]; intros done st Hl.
  - cbn in *. rewrite app_nil_r in *. rewrite <- Hl, set_linkElements_same.
    reflexivity.
  - cbn [markPages]. unfold bind at 1. unfold gets at 1.
    cbn [rendered map] in Hl. rewrite Hl.
    rewrite list_lookup_middle by reflexivity.
    unfold bind at 1. unfold modify at 1.
    rewrite insert_app_r_alt, Nat.sub_diag by reflexivity.
    cbn [list_insert insert with_selected li_each].
    specialize (IH (done ++ [mkLi page (url_is page hrefAttr)])
      (set_linkElements
         (done ++ mkLi page (url_is page hrefAttr) :: rendered rest) st)).
    rewrite length_app in IH. cbn [List.length] in IH.
    replace (List.length done + 1)%nat with (S (List.length done)) in IH
      by lia.
    change (with_selected (url_is page hrefAttr) (mkLi page false))
      with (mkLi page (url_is page hrefAttr)).
    fold (rendered rest).
    rewrite IH.
    + cbn [map]. rewrite <- app_assoc. reflexivity.
    + cbn. rewrite <- app_assoc. reflexivity.
Qed.

Lemma returns_markPages (hrefAttr : option jsstring) (st : State)
    (Q : unit -> State -> Prop) :
  linkElements (tool st) = rendered (pageLinks (tool st)) ->
  Q tt (set_linkElements
          (map (fun p => mkLi p (url_is p hrefAttr)) (pageLinks (tool st)))
          st) ->
  returns (markPages hrefAttr (pageLinks (tool st)) 0) st Q.
Proof.
  intros Hl HQ. eexists tt, _. split; [|exact HQ].
  apply (markPages_rendered hrefAttr (pageLinks (tool st)) [] st Hl).
Qed.

Ltac pstep :=
  lazymatch goal with
  | |- returns (markPages _ _ _) _ _ =>
      apply returns_markPages; [reflexivity|]
  | _ => step
  end.

(** What [checkState] does to the panel, to the URL input and to the
    list. *)
Lemma checkState_result (st : State) :
  returns checkState st (fun r st' =>
    pageLinks (tool st') = pageLinks (tool st)
    /\ existingLinks st' = existingLinks st
    /\ match Selection.findParentTag "A" (browser st) with
       | Some a =>
           let hrefAttr := getAttribute a "href" in
           r = true
           /\ inputOpened (tool st') = true
           /\ div_showed (nodes (tool st')) = true
           /\ input_showed (nodes (tool st')) = true
           /\ input_value (nodes (tool st')) =
                stripNewlines
                  (toValue (if notNullWord hrefAttr then hrefAttr
                            else Some []))
           /\ linkElements (tool st') =
                map (fun p => mkLi p (notNullWord hrefAttr
                                      && url_is p hrefAttr))
                    (pageLinks (tool st))
       | None =>
           r = false
           /\ inputOpened (tool st') = inputOpened (tool st)
           /\ div_showed (nodes (tool st')) = div_showed (nodes (tool st))
           /\ input_showed (nodes (tool st')) =
                input_showed (nodes (tool st))
           /\ linkElements (tool st') = rendered (pageLinks (tool st))
       end).
Proof.
  unfold checkState. repeat pstep; cbn.
  all: match goal with
       | E : Selection.findParentTag _ _ = _ |- _ => cbn in E; rewrite E
       end.
  all: try match goal with E : notNullWord _ = _ |- _ => rewrite E end.
  all: cbn; repeat split; auto.
  all: unfold rendered; rewrite map_map; reflexivity.
Qed.

Lemma active_iff (p : Page) (hrefAttr : option jsstring) :
  notNullWord hrefAttr && url_is p hrefAttr = true <->
  hrefAttr = Some (url p) /\ url p <> lit "null".
Proof.
  unfold notNullWord, url_is.
  destruct hrefAttr as [h|]; [|split; [discriminate | intros [[=] _]]].
  rewrite andb_true_iff, negb_true_iff, eqb_eq. split.
  - intros [Hn <-]. split; [reflexivity|].
    intros E. rewrite E, eqb_refl in Hn. discriminate.
  - intros [[= ->] Hn]. split; [|reflexivity].
    destruct (JS.eqb (url p) (lit "null")) eqn:E; [|reflexivity].
    apply eqb_eq in E. contradiction.
Qed.

(** C3 (amended): [checkState] leaves the panel as it is when the
    selection has no link ancestor; when the ancestor is a link it calls
    [openActions], so the panel is open and shown afterwards whatever it
    was before. *)
Theorem checkState_panel_state (st : State) :
  exists r st',
    checkState st = Ok (r, st')
    /\ match Selection.findParentTag "A" (browser st) with
       | None =>
           r = false
           /\ inputOpened (tool st') = inputOpened (tool st)
           /\ div_showed (nodes (tool st')) = div_showed (nodes (tool st))
           /\ input_showed (nodes (tool st')) =
                input_showed (nodes (tool st))
       | Some _ =>
           r = true
           /\ inputOpened (tool st') = true
           /\ div_showed (nodes (tool st')) = true
           /\ input_showed (nodes (tool st')) = true
       end.
Proof.
  destruct (checkState_result st) as (r & st' & Hrun & _ & _ & Hres).
  exists r, st'. split; [exact Hrun|].
  destruct (Selection.findParentTag "A" (browser st));
    cbn zeta in Hres; tauto.
Qed.

Lemma stripNewlines_id (s : jsstring) :
  hasNewline s = false -> stripNewlines s = s.
Proof.
  unfold hasNewline, stripNewlines.
  induction s as [|c s IH]; cbn; [reflexivity|].
  destruct (isNewline c); cbn; [discriminate|].
  intros Hs. rewrite (IH Hs). reflexivity.
Qed.

(** C4 (amended): on a selection whose ancestor is a link, [checkState]
    assigns the anchor's href to the URL input, or the empty string when
    the attribute is absent or is the word [null]; the text input drops
    LF and CR from what it is assigned, so it holds the href without its
    line breaks, which is the href itself when it has none.  The list is
    rendered anew from the stored pages, and an entry is marked active
    exactly when its url is the href and the href is not the word [null];
    so with the attribute absent, or the word [null], or equal to no
    stored url, no entry is marked. *)
Theorem checkState_on_link (st : State) (a : Element) :
  Selection.findParentTag "A" (browser st) = Some a ->
  let hrefAttr := getAttribute a "href" in
  let active p := notNullWord hrefAttr && url_is p hrefAttr in
  exists st',
    checkState st = Ok (true, st')
    /\ input_value (nodes (tool st')) =
         match hrefAttr with
         | Some h => if JS.eqb h (lit "null") then [] else stripNewlines h
         | None => []
         end
    /\ (forall h, hrefAttr = Some h -> JS.eqb h (lit "null") = false ->
                  hasNewline h = false ->
                  input_value (nodes (tool st')) = h)
    /\ linkElements (tool st') =
         map (fun p => mkLi p (active p)) (pageLinks (tool st))
    /\ (forall p, active p = true <->
                  hrefAttr = Some (url p) /\ url p <> lit "null")
    /\ (hrefAttr = None \/ hrefAttr = Some (lit "null")
        \/ (forall p, In p (pageLinks (tool st)) -> hrefAttr <> Some (url p))
        -> forall li, In li (linkElements (tool st')) ->
                      li_selected li = false).
Proof.
  intros Ha hrefAttr active.
  destruct (checkState_result st) as (r & st' & Hrun & _ & _ & Hres).
  rewrite Ha in Hres. cbn zeta in Hres.
  destruct Hres as (-> & _ & _ & _ & Hin & Hls).
  assert (Hval : input_value (nodes (tool st')) =
                 match hrefAttr with
                 | Some h => if JS.eqb h (lit "null") then []
                             else stripNewlines h
                 | None => []
                 end).
  { rewrite Hin. fold hrefAttr. unfold notNullWord.
    destruct hrefAttr as [h|]; [|reflexivity].
    destruct (JS.eqb h (lit "null")); reflexivity. }
  exists st'. split; [exact Hrun|]. split; [exact Hval|].
  split; [|split; [exact Hls|split]].
  - intros h Eh Hn Hl. rewrite Hval, Eh, Hn. apply stripNewlines_id, Hl.
  - intros p. apply active_iff.
  - intros Hnone li Hli. rewrite Hls in Hli.
    apply in_map_iff in Hli. destruct Hli as (p & <- & Hp). cbn.
    destruct (notNullWord (getAttribute a "href")
              && url_is p (getAttribute a "href")) eqn:E; [|reflexivity].
    apply active_iff in E. destruct E as [E1 E2]. fold hrefAttr in E1.
    destruct Hnone as [Hn | [Hn | Hn]].
    + congruence.
    + rewrite Hn in E1. congruence.
    + elim (Hn p Hp E1).
Qed.

(** How a close leaves the tool. *)
Lemma closeActions_result (clearSavedSelection : bool) (st : State) :
  returns (closeActions clearSavedSelection) st (fun _ st' =>
    inputOpened (tool st') = false
    /\ div_showed (nodes (tool st')) = false
    /\ input_showed (nodes (tool st')) = false
    /\ input_value (nodes (tool st')) = []
    /\ pageLinks (tool st') = pageLinks (tool st)
    /\ effects st' = effects st
    /\ savedSelectionRange (selection (tool st')) =
         if clearSavedSelection then None
         else savedSelectionRange (selection (tool st))).
Proof.
  unfold closeActions. steps; cbn; repeat split; auto.
  all: unfold Selection.removeFakeBackground;
    destruct (isFakeBackgroundEnabled (selection (tool st)));
    reflexivity.
Qed.

Lemma readExistingLinks_state (st st' : State) (pages : list Page) :
  readExistingLinks st = Ok (pages, st') -> st' = st.
Proof.
  unfold readExistingLinks, bind, gets, ret, throw.
  destruct (existingLinks st) as [[|c text]|]; try congruence.
  destruct (JSON_parse (c :: text)); congruence.
Qed.

Lemma openActions_result (needFocus : bool) (st : State) :
  returns (openActions needFocus) st (fun _ st' =>
    inputOpened (tool st') = true
    /\ pageLinks (tool st') = pageLinks (tool st)
    /\ existingLinks st' = existingLinks st).
Proof. unfold openActions. steps; cbn; auto. Qed.

(** C7 (amended): the stored page list is read from the external source
    by [renderActions], when the panel is built: it stores what a fresh
    read yields, and throws when the read throws.  Opening the panel
    reads nothing: [openActions], the toggle and [checkState] leave the
    stored page list as it was. *)
Theorem pageLinks_read_by_renderActions (st : State) :
  match readExistingLinks st with
  | Ok (pages, _) =>
      exists st',
        renderActions st = Ok (tt, st')
        /\ pageLinks (tool st') = pages
        /\ linkElements (tool st') = rendered pages
  | Throw e => renderActions st = Throw e
  end
  /\ (forall needFocus, exists st',
        openActions needFocus st = Ok (tt, st')
        /\ inputOpened (tool st') = true
        /\ pageLinks (tool st') = pageLinks (tool st))
  /\ (exists st',
        toggleActions st = Ok (tt, st')
        /\ inputOpened (tool st') = negb (inputOpened (tool st))
        /\ pageLinks (tool st') = pageLinks (tool st))
  /\ (exists r st',
        checkState st = Ok (r, st')
        /\ pageLinks (tool st') = pageLinks (tool st)).
Proof.
  repeat split.
  - destruct (readExistingLinks st) as [[pages st1]|e] eqn:E.
    + pose proof (readExistingLinks_state _ _ _ E) as ->.
      apply returns_unit. unfold renderActions. step.
      exists pages, st. split; [exact E|].
      steps. cbn. auto.
    + unfold renderActions, bind at 1. rewrite E. reflexivity.
  - intros needFocus. apply returns_unit.
    apply (returns_weaken _ _ _ _ (openActions_result needFocus st)).
    cbn. tauto.
  - apply returns_unit. unfold toggleActions. step. step.
    destruct (inputOpened (tool st)); cbn [negb].
    + apply (returns_weaken _ _ _ _ (closeActions_result false st)).
      cbn. tauto.
    + apply (returns_weaken _ _ _ _ (openActions_result true st)).
      cbn. tauto.
  - destruct (checkState_result st) as (r & st' & Hrun & Hp & _).
    exists r, st'. auto.
Qed.

(** C6 (the code at the failing input): on the example list, the query
    [Ho] finds nothing, because only the entry names are lower-cased
    before the comparison and the query is compared as typed. *)
Theorem searchInput_keyup_mixed_case_query (st : State) :
  pageLinks (tool st) = [Home; About] ->
  searchInput_value (nodes (tool st)) = lit "Ho" ->
  toLocaleLowerCase (lit "Home") = lit "home" ->
  toLocaleLowerCase (lit "About") = lit "about" ->
  exists st',
    searchInput_keyup st = Ok (tt, st')
    /\ linkElements (tool st') = [].
Proof.
  intros Hp Hq Hh Ha. apply returns_unit.
  unfold searchInput_keyup. do 4 step. rewrite Hp, Hq.
  change (truthyNumber (JS.length (trim (lit "Ho")))) with true.
  cbn [List.filter name Home About]. rewrite Hh, Ha.
  change (includes (lit "home") (trim (lit "Ho"))) with false.
  change (includes (lit "about") (trim (lit "Ho"))) with false.
  steps. reflexivity.
Qed.

(** The parts of the filter that hold: a blank query renders the whole
    list in its order, and a lower-case query selects, in their order,
    the entries whose lower-cased name contains it. *)
Lemma searchInput_keyup_result (st : State) :
  let query := trim (searchInput_value (nodes (tool st))) in
  exists st',
    searchInput_keyup st = Ok (tt, st')
    /\ linkElements (tool st') =
         rendered
           (if truthy query
            then List.filter
                   (fun each => includes (toLocaleLowerCase (name each)) query)
                   (pageLinks (tool st))
            else pageLinks (tool st)).
Proof.
  intros query. apply returns_unit.
  unfold searchInput_keyup. do 4 step. fold query.
  destruct query as [|c q]; cbn [truthy].
  - change (truthyNumber (JS.length [])) with false. cbv iota.
    steps. reflexivity.
  - change (truthyNumber (JS.length (c :: q))) with true. cbv iota.
    steps. reflexivity.
Qed.
End Panel.

(** ** The normaliser *)

(** C5 (amended): [prepareLink] trims, then applies the rules in order:
    scheme and [://], single slash before a character that is neither slash
    nor white space, [#], two slashes before a character that is neither
    slash nor white space, and otherwise the prefix [http://]; with the
    five examples of the specification. *)
Theorem prepareLink_rules :
  (forall s, prepareLink s = Rules.normalize s)
  /\ prepareLink (lit "vc.ru") = lit "http://vc.ru"
  /\ prepareLink (lit "/general") = lit "/general"
  /\ prepareLink (lit "#results") = lit "#results"
  /\ prepareLink (lit "//google.com") = lit "//google.com"
  /\ prepareLink (lit "  example.com  ") = lit "http://example.com".
Proof.
  split; [|repeat split; reflexivity].
  intros s. unfold prepareLink, Rules.normalize, Rules.cascade.
  apply addProtocol_cascade.
Qed.

(** C5 fails as stated: after two slashes and a space the stated fourth
    rule keeps the string, the code prefixes it. *)
Lemma prepareLink_slashes_space :
  Rules.normalize_stated (lit "// x") = lit "// x"
  /\ prepareLink (lit "// x") = lit "http://// x"
  /\ prepareLink (lit "// x") <> Rules.normalize_stated (lit "// x").
Proof. repeat split. vm_compute. discriminate. Qed.

(** C9 (amended): a string whose trimmed form begins with a scheme and
    [://] is returned trimmed, hence unchanged when it carries no
    surrounding white space; and [prepareLink] is idempotent on every
    string. *)
Theorem prepareLink_scheme_trimmed (s : jsstring) :
  test re_protocol (trim s) = true ->
  prepareLink s = trim s
  /\ (trim s = s -> prepareLink s = s)
  /\ forall u, prepareLink (prepareLink u) = prepareLink u.
Proof.
  intros Hp.
  assert (E : prepareLink s = trim s)
    by (unfold prepareLink; apply addProtocol_scheme, Hp).
  split; [exact E|]. split; [congruence|]. exact prepareLink_idempotent.
Qed.

Lemma prepareLink_scheme_trimmed_witness :
  prepareLink (lit "http://vc.ru ") = trim (lit "http://vc.ru ")
  /\ (trim (lit "http://vc.ru ") = lit "http://vc.ru " ->
      prepareLink (lit "http://vc.ru ") = lit "http://vc.ru ")
  /\ forall u, prepareLink (prepareLink u) = prepareLink u.
Proof. apply (prepareLink_scheme_trimmed (lit "http://vc.ru ")). reflexivity. Defined.

(** C9 fails as stated: a string that begins with a scheme and ends in a
    space is not returned unchanged. *)
Lemma prepareLink_scheme_trailing_space :
  test re_protocol (lit "http://vc.ru ") = true
  /\ prepareLink (lit "http://vc.ru ") = lit "http://vc.ru"
  /\ prepareLink (lit "http://vc.ru ") <> lit "http://vc.ru ".
Proof. repeat split. vm_compute. discriminate. Qed.

(** ** More on validation and normalisation *)

Lemma validateURL_true (s : jsstring) :
  validateURL s = true -> forall c, In c s -> isSpace c = false.
Proof.
  intros Hv c Hc. destruct (isSpace c) eqn:E; [|reflexivity].
  assert (Hf : validateURL s = false)
    by (apply validateURL_false; exists c; auto).
  congruence.
Qed.

Lemma validateURL_app (a b : jsstring) :
  validateURL (a ++ b) = validateURL a && validateURL b.
Proof.
  unfold validateURL. rewrite !search_space, existsb_app, negb_orb.
  reflexivity.
Qed.

Lemma validated_trim (s : jsstring) : validateURL s = true -> trim s = s.
Proof.
  intros Hv. pose proof (validateURL_true s Hv) as Hs.
  apply trim_id.
  - destruct s as [|c s]; [exact I|]. apply Hs. left; reflexivity.
  - destruct (rev s) as [|c t] eqn:E; [exact I|].
    apply Hs, in_rev. rewrite E. left; reflexivity.
Qed.

(** X1: a value that passed [validateURL] has nothing to trim, so
    [prepareLink] is [addProtocol] on it, and the prepared link passes
    [validateURL] again. *)
Theorem prepareLink_of_validated (s : jsstring) :
  validateURL s = true ->
  trim s = s
  /\ prepareLink s = addProtocol s
  /\ validateURL (prepareLink s) = true.
Proof.
  intros Hv. pose proof (validated_trim s Hv) as Ht.
  assert (Hp : prepareLink s = addProtocol s)
    by (unfold prepareLink; rewrite Ht; reflexivity).
  split; [exact Ht|]. split; [exact Hp|].
  rewrite Hp. destruct (addProtocol_cases s) as [-> | ->]; [exact Hv|].
  rewrite validateURL_app, Hv. reflexivity.
Qed.

Lemma prefixed_differs (s : jsstring) : lit "http://" ++ s <> s.
Proof.
  intros E. apply (f_equal (@List.length N)) in E.
  rewrite length_app in E. unfold lit in E. cbn in E. lia.
Qed.

(** X2: [addProtocol] returns its argument unchanged exactly when the
    argument matches the protocol pattern, the internal-path pattern, the
    protocol-relative pattern, or begins with [#]; in every other case it
    returns the argument behind [http://]. *)
Theorem addProtocol_unchanged_iff (s : jsstring) :
  let kept :=
    test re_protocol s || test re_internal s
    || JS.eqb (substring01 s) (lit "#") || test re_protocolRelative s in
  (addProtocol s = s <-> kept = true)
  /\ (kept = false -> addProtocol s = lit "http://" ++ s).
Proof.
  cbn zeta. unfold addProtocol.
  destruct (test re_protocol s), (test re_internal s),
    (JS.eqb (substring01 s) (lit "#")), (test re_protocolRelative s);
    cbn [negb andb orb]; (split; [split|]); intros E; try reflexivity;
    try discriminate E.
  elim (prefixed_differs s E).
Qed.

(** X3: [prepareLink] never returns the empty string; an empty or
    white-space-only argument comes back as the bare [http://]. *)
Theorem prepareLink_never_empty (s : jsstring) :
  truthy (prepareLink s) = true
  /\ (truthy (trim s) = false -> prepareLink s = lit "http://").
Proof.
  unfold prepareLink. destruct (trim s) as [|c t] eqn:Et.
  - split; reflexivity.
  - split; [|discriminate].
    destruct (addProtocol_cases (c :: t)) as [-> | ->]; reflexivity.
Qed.

(** ** What each method leaves behind *)

Section Transitions.
Context `{Host}.

Lemma State_ext (s1 s2 : State) :
  tool s1 = tool s2 -> browser s1 = browser s2 ->
  existingLinks s1 = existingLinks s2 -> effects s1 = effects s2 ->
  s1 = s2.
Proof. destruct s1, s2. cbn. congruence. Qed.

Lemma Tool_ext (t1 t2 : Tool) :
  pageLinks t1 = pageLinks t2 -> linkElements t1 = linkElements t2 ->
  nodes t1 = nodes t2 -> selection t1 = selection t2 ->
  inputOpened t1 = inputOpened t2 ->
  t1 = t2.
Proof. destruct t1, t2. cbn. congruence. Qed.

Lemma save_save (g : SelectionUtils) (b : Browser) :
  Selection.save (Selection.save g b) b = Selection.save g b.
Proof. unfold Selection.save. destruct (live b); reflexivity. Qed.

Ltac qstep :=
  lazymatch goal with
  | |- returns (markPages _ _ _) _ _ =>
      apply returns_markPages; [reflexivity|]
  | _ => step
  end.

(** Every field after [checkState], from the fields before. *)
Lemma checkState_summary (st : State) :
  returns checkState st (fun r st' =>
    browser st' = browser st
    /\ existingLinks st' = existingLinks st
    /\ effects st' = effects st
    /\ pageLinks (tool st') = pageLinks (tool st)
    /\ match Selection.findParentTag "A" (browser st) with
       | Some a =>
           let hrefAttr := getAttribute a "href" in
           r = true
           /\ inputOpened (tool st') = true
           /\ selection (tool st') =
                Selection.save (selection (tool st)) (browser st)
           /\ nodes (tool st') =
                mkNodes true true
                  (stripNewlines
                     (toValue (if notNullWord hrefAttr then hrefAttr
                               else Some [])))
                  true true []
           /\ linkElements (tool st') =
                map (fun p => mkLi p (notNullWord hrefAttr
                                      && url_is p hrefAttr))
                    (pageLinks (tool st))
       | None =>
           r = false
           /\ inputOpened (tool st') = inputOpened (tool st)
           /\ selection (tool st') = selection (tool st)
           /\ nodes (tool st') =
                mkNodes false false (input_value (nodes (tool st)))
                  (input_showed (nodes (tool st)))
                  (div_showed (nodes (tool st))) []
           /\ linkElements (tool st') = rendered (pageLinks (tool st))
       end).
Proof.
  unfold checkState. repeat qstep; cbn.
  all: match goal with
       | E : Selection.findParentTag _ _ = _ |- _ => cbn in E; rewrite E
       end.
  all: try match goal with E : notNullWord _ = _ |- _ => rewrite E end.
  all: cbn; repeat split; auto.
  all: unfold rendered; rewrite map_map; reflexivity.
Qed.

(** X4: [checkState] never throws, whatever list the search filter left
    behind, because it renders the whole list before it indexes it.  It
    issues no outgoing call and leaves the browser, the stored pages and
    the external store alone; it empties the search input and ends with
    one list element per stored page, in the order of the pages. *)
Theorem checkState_frame (st : State) :
  exists r st',
    checkState st = Ok (r, st')
    /\ browser st' = browser st
    /\ effects st' = effects st
    /\ existingLinks st' = existingLinks st
    /\ pageLinks (tool st') = pageLinks (tool st)
    /\ searchInput_value (nodes (tool st')) = []
    /\ map li_each (linkElements (tool st')) = pageLinks (tool st).
Proof.
  destruct (checkState_summary st)
    as (r & st' & Hrun & Hb & Hx & He & Hp & Hcase).
  exists r, st'. repeat split; auto.
  - destruct (Selection.findParentTag "A" (browser st));
      cbn zeta in Hcase; destruct Hcase as (_ & _ & _ & -> & _); reflexivity.
  - destruct (Selection.findParentTag "A" (browser st));
      cbn zeta in Hcase; destruct Hcase as (_ & _ & _ & _ & ->);
      unfold rendered; rewrite map_map; cbn; apply map_id.
Qed.

(** X5: when [checkState] finds no link ancestor it clears both button
    classes and every highlight and keeps the guard as it is; when it finds
    one it sets both button classes, and the guard saves the live
    selection. *)
Theorem checkState_button_and_guard (st : State) :
  exists r st',
    checkState st = Ok (r, st')
    /\ match Selection.findParentTag "A" (browser st) with
       | None =>
           r = false
           /\ button_unlink (nodes (tool st')) = false
           /\ button_active (nodes (tool st')) = false
           /\ selection (tool st') = selection (tool st)
           /\ forall li, In li (linkElements (tool st')) ->
                         li_selected li = false
       | Some _ =>
           r = true
           /\ button_unlink (nodes (tool st')) = true
           /\ button_active (nodes (tool st')) = true
           /\ savedSelectionRange (selection (tool st')) = live (browser st)
           /\ isFakeBackgroundEnabled (selection (tool st')) =
                isFakeBackgroundEnabled (selection (tool st))
       end.
Proof.
  destruct (checkState_summary st)
    as (r & st' & Hrun & _ & _ & _ & _ & Hcase).
  exists r, st'. split; [exact Hrun|].
  unfold Selection.findParentTag in *.
  destruct (live (browser st)) as [rg|] eqn:El.
  - destruct (ancestor "A" (dom (browser st)) rg); cbn zeta in Hcase;
      destruct Hcase as (-> & _ & Hs & Hn & Hl); rewrite Hn, Hs.
    + unfold Selection.save. rewrite El. cbn. auto.
    + cbn. repeat split; auto. intros li Hli. rewrite Hl in Hli.
      apply in_map_iff in Hli. destruct Hli as (p & <- & _). reflexivity.
  - destruct Hcase as (-> & _ & Hs & Hn & Hl); rewrite Hn, Hs.
    cbn. repeat split; auto. intros li Hli. rewrite Hl in Hli.
    apply in_map_iff in Hli. destruct Hli as (p & <- & _). reflexivity.
Qed.

(** X6: [checkState] is idempotent: run again on the state it produced,
    it returns the same answer and changes nothing. *)
Theorem checkState_idempotent (st : State) :
  exists r st',
    checkState st = Ok (r, st') /\ checkState st' = Ok (r, st').
Proof.
  destruct (checkState_summary st)
    as (r & st' & Hrun & Hb & Hx & He & Hp & Hcase).
  destruct (checkState_summary st')
    as (r2 & st2 & Hrun2 & Hb2 & Hx2 & He2 & Hp2 & Hcase2).
  exists r, st'. split; [exact Hrun|].
  rewrite Hb in Hcase2.
  assert (r2 = r /\ st2 = st') as [-> ->]; [|exact Hrun2].
  destruct (Selection.findParentTag "A" (browser st)) as [a|];
    cbn zeta in Hcase, Hcase2;
    destruct Hcase as (-> & Hi & Hs & Hn & Hl);
    destruct Hcase2 as (-> & Hi2 & Hs2 & Hn2 & Hl2);
    (split; [reflexivity|]);
    apply State_ext; try congruence;
    apply Tool_ext; try congruence.
  - rewrite Hs2, Hs. apply save_save.
  - rewrite Hn2, Hn. reflexivity.
Qed.

(** Every field after [closeActions], from the fields before. *)
Lemma closeActions_summary (clearSavedSelection : bool) (st : State) :
  returns (closeActions clearSavedSelection) st (fun _ st' =>
    pageLinks (tool st') = pageLinks (tool st)
    /\ linkElements (tool st') = linkElements (tool st)
    /\ existingLinks st' = existingLinks st
    /\ effects st' = effects st
    /\ inputOpened (tool st') = false
    /\ nodes (tool st') =
         mkNodes (button_unlink (nodes (tool st)))
                 (button_active (nodes (tool st))) [] false false
                 (searchInput_value (nodes (tool st)))
    /\ selection (tool st') =
         mkSelectionUtils
           (if clearSavedSelection then None
            else savedSelectionRange (selection (tool st)))
           false
    /\ browser st' =
         if isFakeBackgroundEnabled (selection (tool st))
         then Selection.restore
                (Selection.save Selection.new (browser st))
                (unpaintFake
                   (Selection.restore (selection (tool st)) (browser st)))
         else browser st).
Proof.
  unfold closeActions. steps; cbn.
  all: unfold Selection.removeFakeBackground, Selection.clearSaved.
  all: match goal with
       | E : isFakeBackgroundEnabled _ = _ |- _ => rewrite ?E
       end.
  all: cbn; repeat split; auto.
  all: destruct (selection (tool st)); cbn in *; congruence.
Qed.

(** X7: closing twice is closing once: [closeActions b2] after
    [closeActions b1] ends in the state of [closeActions (b1 || b2)]; in
    particular a second [clear] changes nothing. *)
Theorem closeActions_twice (b1 b2 : bool) (st : State) :
  exists st1 st2,
    closeActions b1 st = Ok (tt, st1)
    /\ closeActions b2 st1 = Ok (tt, st2)
    /\ closeActions (b1 || b2) st = Ok (tt, st2)
    /\ (b1 = true -> st2 = st1).
Proof.
  destruct (closeActions_summary b1 st)
    as ([] & st1 & Hrun1 & Hp1 & Hl1 & Hx1 & He1 & Hi1 & Hn1 & Hs1 & Hb1).
  destruct (closeActions_summary b2 st1)
    as ([] & st2 & Hrun2 & Hp2 & Hl2 & Hx2 & He2 & Hi2 & Hn2 & Hs2 & Hb2).
  destruct (closeActions_summary (b1 || b2) st)
    as ([] & st3 & Hrun3 & Hp3 & Hl3 & Hx3 & He3 & Hi3 & Hn3 & Hs3 & Hb3).
  rewrite Hs1 in Hb2, Hs2. cbn in Hb2, Hs2. rewrite Hn1 in Hn2. cbn in Hn2.
  exists st1, st2. repeat split; auto.
  - rewrite Hrun3. do 2 f_equal.
    apply State_ext; try congruence.
    apply Tool_ext; try congruence.
    rewrite Hs3, Hs2. destruct b1, b2; reflexivity.
  - intros ->. apply State_ext; try congruence.
    apply Tool_ext; try congruence.
    rewrite Hs2, Hs1. destruct b2; reflexivity.
Qed.

(** X8: a close never loses a selection made since: when a fake highlight
    is active and the browser has a live selection, that selection is the
    live one again after [closeActions]; without a fake highlight the
    browser is not touched.  The fake-highlight flag is off afterwards in
    either case. *)
Theorem closeActions_keeps_newer_selection (clearSavedSelection : bool)
    (st : State) :
  exists st',
    closeActions clearSavedSelection st = Ok (tt, st')
    /\ isFakeBackgroundEnabled (selection (tool st')) = false
    /\ (isFakeBackgroundEnabled (selection (tool st)) = false ->
        browser st' = browser st)
    /\ (isFakeBackgroundEnabled (selection (tool st)) = true ->
        forall r, live (browser st) = Some r -> live (browser st') = Some r).
Proof.
  apply returns_unit.
  apply (returns_weaken _ _ _ _ (closeActions_summary clearSavedSelection st)).
  intros _ st' (_ & _ & _ & _ & _ & _ & Hs & Hb).
  rewrite Hs, Hb. cbn. split; [reflexivity|]. split.
  - intros ->. reflexivity.
  - intros -> r Hr. unfold Selection.save, Selection.restore at 1.
    rewrite Hr. reflexivity.
Qed.

(** What a valid, non-blank submit does. *)
Lemma enterPressed_valid_result (st : State) (isExisting : bool)
    (data : jsstring) :
  validateURL (submitted isExisting data st) = true ->
  truthy (trim (submitted isExisting data st)) = true ->
  exists st',
    enterPressed isExisting data st = Ok (tt, st')
    /\ effects st' =
         effects st ++
           [document_execCommand commandLink
              (Some (prepareLink (submitted isExisting data st)));
            event_preventDefault;
            event_stopPropagation;
            event_stopImmediatePropagation;
            inlineToolbar_close]
    /\ inputOpened (tool st') = inputOpened (tool st)
    /\ nodes (tool st') = nodes (tool st)
    /\ pageLinks (tool st') = pageLinks (tool st)
    /\ linkElements (tool st') = linkElements (tool st)
    /\ savedSelectionRange (selection (tool st')) =
         savedSelectionRange (selection (tool st))
    /\ isFakeBackgroundEnabled (selection (tool st')) = false.
Proof.
  intros Hv Ht. apply returns_unit.
  unfold enterPressed. step. step. rewrite Ht, Hv. cbn [negb].
  steps; cbn; rewrite <- ?app_assoc; repeat split; auto.
  all: unfold Selection.removeFakeBackground;
    destruct (isFakeBackgroundEnabled (selection (tool st))) eqn:E;
    cbn; auto.
Qed.

(** X9: a submit of a value that is valid and not blank issues exactly
    one [createLink], with the prepared value, then stops the event and
    asks the host to close the inline toolbar.  It does not close the
    panel itself: [inputOpened], the elements of [nodes] (the typed text
    included), the list and the saved snapshot are as before; the fake
    highlight is off. *)
Theorem enterPressed_valid_submit (st : State) (isExisting : bool)
    (data : jsstring) :
  validateURL (submitted isExisting data st) = true ->
  truthy (trim (submitted isExisting data st)) = true ->
  exists st',
    enterPressed isExisting data st = Ok (tt, st')
    /\ effects st' =
         effects st ++
           [document_execCommand commandLink
              (Some (prepareLink (submitted isExisting data st)));
            event_preventDefault;
            event_stopPropagation;
            event_stopImmediatePropagation;
            inlineToolbar_close]
    /\ inputOpened (tool st') = inputOpened (tool st)
    /\ nodes (tool st') = nodes (tool st)
    /\ pageLinks (tool st') = pageLinks (tool st)
    /\ linkElements (tool st') = linkElements (tool st)
    /\ savedSelectionRange (selection (tool st')) =
         savedSelectionRange (selection (tool st))
    /\ isFakeBackgroundEnabled (selection (tool st')) = false.
Proof. apply enterPressed_valid_result. Qed.

(** X10: whatever is submitted, [enterPressed] never throws and never
    touches the stored pages, the rendered list, the external store, the
    search input or the classes of the button. *)
Theorem enterPressed_frame (st : State) (isExisting : bool)
    (data : jsstring) :
  exists st',
    enterPressed isExisting data st = Ok (tt, st')
    /\ pageLinks (tool st') = pageLinks (tool st)
    /\ linkElements (tool st') = linkElements (tool st)
    /\ existingLinks st' = existingLinks st
    /\ searchInput_value (nodes (tool st')) =
         searchInput_value (nodes (tool st))
    /\ button_unlink (nodes (tool st')) = button_unlink (nodes (tool st))
    /\ button_active (nodes (tool st')) = button_active (nodes (tool st)).
Proof.
  apply returns_unit. unfold enterPressed. steps; cbn; auto 8.
Qed.

(** X11: a toggle flips [inputOpened]; two toggles in a row bring it back
    to where it was and leave the saved snapshot, the stored pages and the
    rendered list alone. *)
Theorem toggleActions_twice (st : State) :
  exists st1 st2,
    toggleActions st = Ok (tt, st1)
    /\ toggleActions st1 = Ok (tt, st2)
    /\ inputOpened (tool st1) = negb (inputOpened (tool st))
    /\ inputOpened (tool st2) = inputOpened (tool st)
    /\ savedSelectionRange (selection (tool st2)) =
         savedSelectionRange (selection (tool st))
    /\ pageLinks (tool st2) = pageLinks (tool st)
    /\ linkElements (tool st2) = linkElements (tool st).
Proof.
  assert (Hone : forall s : State,
    returns toggleActions s (fun _ s' =>
      inputOpened (tool s') = negb (inputOpened (tool s))
      /\ savedSelectionRange (selection (tool s')) =
           savedSelectionRange (selection (tool s))
      /\ pageLinks (tool s') = pageLinks (tool s)
      /\ linkElements (tool s') = linkElements (tool s))).
  { intros s. unfold toggleActions. step. step.
    destruct (inputOpened (tool s)) eqn:E; cbn [negb].
    - eapply returns_weaken; [apply closeActions_summary|].
      intros _ s' (Hp & Hl & _ & _ & Hi & _ & Hs & _).
      rewrite Hs. cbn. auto.
    - steps; cbn; auto. }
  destruct (Hone st) as ([] & st1 & Hrun1 & Hi1 & Hs1 & Hp1 & Hl1).
  destruct (Hone st1) as ([] & st2 & Hrun2 & Hi2 & Hs2 & Hp2 & Hl2).
  exists st1, st2. repeat split; auto; try congruence.
  rewrite Hi2, Hi1. apply negb_involutive.
Qed.

Lemma filter_sublist {A} (f : A -> bool) (l : list A) :
  sublist (List.filter f l) l.
Proof.
  induction l as [|x l IH]; cbn; [constructor|].
  destruct (f x); [apply sublist_skip | apply sublist_cons]; exact IH.
Qed.

(** X12: the search filter renders, in the order of the stored pages, the
    entries whose lower-cased name contains the trimmed query, and the
    whole list when the trimmed query is empty; every rendered element is
    left without highlight, and nothing but the list changes. *)
Theorem searchInput_keyup_filter (st : State) :
  let query := trim (searchInput_value (nodes (tool st))) in
  let shown :=
    if truthy query
    then List.filter
           (fun each => includes (toLocaleLowerCase (name each)) query)
           (pageLinks (tool st))
    else pageLinks (tool st) in
  exists st',
    searchInput_keyup st = Ok (tt, st')
    /\ st' = set_linkElements (rendered shown) st
    /\ map li_each (linkElements (tool st')) = shown
    /\ sublist shown (pageLinks (tool st))
    /\ (forall li, In li (linkElements (tool st')) -> li_selected li = false)
    /\ (truthy query = false ->
        map li_each (linkElements (tool st')) = pageLinks (tool st)).
Proof.
  intros query shown.
  assert (Hrun : searchInput_keyup st = Ok (tt, set_linkElements (rendered shown) st)).
  { unfold searchInput_keyup, bind, gets, renderList, modify. cbn beta.
    fold query. subst shown. destruct query as [|c q]; reflexivity. }
  assert (Hmap : map li_each (rendered shown) = shown).
  { unfold rendered. rewrite map_map. cbn. apply map_id. }
  eexists. split; [exact Hrun|]. split; [reflexivity|]. cbn.
  split; [exact Hmap|]. split; [|split].
  - subst shown. destruct (truthy query); [|reflexivity].
    apply filter_sublist.
  - intros li Hli. unfold rendered in Hli. apply in_map_iff in Hli.
    destruct Hli as (p & <- & _). reflexivity.
  - intros E. rewrite Hmap. subst shown. rewrite E. reflexivity.
Qed.

(** X13: with nothing stored under the key, or the empty text,
    [renderActions] does not throw and leaves an empty page list and an
    empty rendered list.  Whenever it returns it has hidden the rebuilt
    panel and emptied both inputs, and it has kept [inputOpened], the
    guard, the browser, the classes of the button and the log of calls. *)
Theorem renderActions_rebuilds (st : State) :
  ((existingLinks st = None \/ existingLinks st = Some []) ->
   exists st',
     renderActions st = Ok (tt, st')
     /\ pageLinks (tool st') = []
     /\ linkElements (tool st') = [])
  /\ forall st',
       renderActions st = Ok (tt, st') ->
       nodes (tool st') =
         mkNodes (button_unlink (nodes (tool st)))
                 (button_active (nodes (tool st))) [] false false []
       /\ linkElements (tool st') = rendered (pageLinks (tool st'))
       /\ inputOpened (tool st') = inputOpened (tool st)
       /\ selection (tool st') = selection (tool st)
       /\ browser st' = browser st
       /\ existingLinks st' = existingLinks st
       /\ effects st' = effects st.
Proof.
  split.
  - intros Hnone. apply returns_unit. unfold renderActions. step.
    exists [], st. split.
    + unfold readExistingLinks, bind, gets.
      destruct Hnone as [-> | ->]; reflexivity.
    + steps. cbn. auto.
  - intros st' Hrun. unfold renderActions, bind at 1 in Hrun.
    destruct (readExistingLinks st) as [[pages st1]|e] eqn:E;
      [|discriminate].
    pose proof (readExistingLinks_state _ _ _ E) as ->.
    cbn in Hrun. injection Hrun as <-. cbn. auto 8.
Qed.

(** Steps up to the next call of a method that has a summary. *)
Ltac upto :=
  repeat lazymatch goal with
  | |- returns checkState _ _ => fail
  | |- returns (closeActions _) _ _ => fail
  | |- returns toggleActions _ _ => fail
  | _ => step
  end.

(** The three ways a click on the icon can go. *)
Lemma surround_summary (range : option Range) (st : State) :
  returns (surround range) st (fun _ st' =>
    pageLinks (tool st') = pageLinks (tool st)
    /\ existingLinks st' = existingLinks st
    /\ match anchorAtLookup range st with
       | Some _ =>
           effects st' =
             effects st ++
               [document_execCommand commandUnlink None; toolbar_close]
           /\ map li_each (linkElements (tool st')) = pageLinks (tool st)
           /\ isFakeBackgroundEnabled (selection (tool st')) = false
           /\ div_showed (nodes (tool st')) = inputOpened (tool st')
           /\ input_showed (nodes (tool st')) = inputOpened (tool st')
           /\ (inputOpened (tool st') = false ->
               savedSelectionRange (selection (tool st')) = None
               /\ input_value (nodes (tool st')) = [])
       | None =>
           linkElements (tool st') = linkElements (tool st)
           /\ inputOpened (tool st') = negb (inputOpened (tool st))
           /\ div_showed (nodes (tool st')) = negb (inputOpened (tool st))
           /\ input_showed (nodes (tool st')) = negb (inputOpened (tool st))
           /\ if inputOpened (tool st)
              then effects st' = effects st
                   /\ isFakeBackgroundEnabled (selection (tool st')) = false
                   /\ savedSelectionRange (selection (tool st')) =
                        savedSelectionRange (selection (tool st))
                   /\ input_value (nodes (tool st')) = []
              else effects st' = effects st ++ [input_focus]
                   /\ input_value (nodes (tool st')) =
                        input_value (nodes (tool st))
                   /\ browser st' =
                        focusInput
                          (match range with
                           | Some _ => paintFake (browser st)
                           | None => browser st
                           end)
                   /\ selection (tool st') =
                        match range with
                        | Some _ =>
                            Selection.save
                              (mkSelectionUtils
                                 (savedSelectionRange (selection (tool st)))
                                 true)
                              (paintFake (browser st))
                        | None => selection (tool st)
                        end
       end).
Proof.
  assert (Hunlink : forall (a : Element) (s0 : State),
    returns (selection_expandToTag a;; unlink;; closeActions true;;
             checkState;; call toolbar_close;; ret true)%js s0
      (fun (u : bool) s' =>
         u = true
         /\ pageLinks (tool s') = pageLinks (tool s0)
         /\ existingLinks s' = existingLinks s0
         /\ effects s' =
              effects s0 ++
                [document_execCommand commandUnlink None; toolbar_close]
         /\ map li_each (linkElements (tool s')) = pageLinks (tool s0)
         /\ isFakeBackgroundEnabled (selection (tool s')) = false
         /\ div_showed (nodes (tool s')) = inputOpened (tool s')
         /\ input_showed (nodes (tool s')) = inputOpened (tool s')
         /\ (inputOpened (tool s') = false ->
             savedSelectionRange (selection (tool s')) = None
             /\ input_value (nodes (tool s')) = []))).
  { intros a s0. upto.
    eapply returns_weaken; [apply closeActions_summary|]. cbn beta.
    intros _ s1 (Hp1 & Hl1 & Hx1 & He1 & Hi1 & Hn1 & Hs1 & Hb1).
    cbn in Hp1, Hl1, Hx1, He1. upto.
    eapply returns_weaken; [apply checkState_summary|]. cbn beta.
    intros u s2 (Hb2 & Hx2 & He2 & Hp2 & Hcase). steps. cbn.
    split; [reflexivity|]. split; [congruence|]. split; [congruence|].
    split; [rewrite He2, He1, <- app_assoc; reflexivity|].
    destruct (Selection.findParentTag "A" (browser s1)) as [a'|];
      cbn zeta in Hcase; destruct Hcase as (_ & Hi2 & Hs2 & Hn2 & Hl2);
      rewrite Hl2, Hs2, Hn2, Hi2, ?Hs1, ?Hn1, ?Hi1, Hp1; cbn;
      unfold rendered; rewrite map_map; cbn; rewrite map_id;
      repeat split; auto; try discriminate.
    unfold Selection.save. destruct (live (browser s1)); reflexivity. }
  assert (Htoggle : forall s0 : State,
    returns toggleActions s0 (fun _ s' =>
      pageLinks (tool s') = pageLinks (tool s0)
      /\ existingLinks s' = existingLinks s0
      /\ linkElements (tool s') = linkElements (tool s0)
      /\ inputOpened (tool s') = negb (inputOpened (tool s0))
      /\ div_showed (nodes (tool s')) = negb (inputOpened (tool s0))
      /\ input_showed (nodes (tool s')) = negb (inputOpened (tool s0))
      /\ if inputOpened (tool s0)
         then effects s' = effects s0
              /\ isFakeBackgroundEnabled (selection (tool s')) = false
              /\ savedSelectionRange (selection (tool s')) =
                   savedSelectionRange (selection (tool s0))
              /\ input_value (nodes (tool s')) = []
         else effects s' = effects s0 ++ [input_focus]
              /\ input_value (nodes (tool s')) = input_value (nodes (tool s0))
              /\ browser s' = focusInput (browser s0)
              /\ selection (tool s') = selection (tool s0))).
  { intros s0. unfold toggleActions. step. step.
    destruct (inputOpened (tool s0)) eqn:E; cbn [negb].
    - eapply returns_weaken; [apply closeActions_summary|]. cbn beta.
      intros _ s1 (Hp1 & Hl1 & Hx1 & He1 & Hi1 & Hn1 & Hs1 & Hb1).
      rewrite Hn1, Hs1. cbn. auto 10.
    - steps. cbn. auto 10. }
  unfold surround, anchorAtLookup, browserAtLookup.
  destruct range as [r|].
  - do 4 step. destruct (inputOpened (tool st)) eqn:Eo; cbn [negb].
    + do 8 step. cbn.
      lazymatch goal with
      | |- returns (match ?x with _ => _ end) _ _ => destruct x as [a|] eqn:Ea
      end.
      * eapply returns_weaken; [apply Hunlink|]. cbn beta.
        intros u s' (-> & Hrest). step. cbn in Hrest. exact Hrest.
      * do 2 step. eapply returns_weaken; [apply Htoggle|]. cbn beta.
        intros _ s'. cbn. rewrite Eo. cbn [negb].
        intros (? & ? & ? & ? & ? & ? & ? & ? & Hs & ?).
        repeat split; auto. rewrite Hs.
        unfold Selection.removeFakeBackground.
        destruct (isFakeBackgroundEnabled (selection (tool st)));
          reflexivity.
    + do 8 step. cbn.
      lazymatch goal with
      | |- returns (match ?x with _ => _ end) _ _ => destruct x as [a|] eqn:Ea
      end.
      * eapply returns_weaken; [apply Hunlink|]. cbn beta.
        intros u s' (-> & Hrest). step. cbn in Hrest. exact Hrest.
      * do 2 step. eapply returns_weaken; [apply Htoggle|]. cbn beta.
        intros _ s'. cbn. rewrite Eo. cbn [negb]. tauto.
  - do 3 step. eapply returns_weaken; [apply Htoggle|]. cbn beta.
    intros _ s'. destruct (inputOpened (tool st)); tauto.
Qed.

(** X14: when [surround] finds the selection inside a link it takes the
    unlink shortcut: it issues [unlink] and then closes the host toolbar,
    and nothing else; the fake highlight is off, the list is rendered anew
    from the stored pages, and if the panel ends closed the saved snapshot
    is gone and the URL input is empty. *)
Theorem surround_unlink_shortcut (range : option Range) (st : State)
    (a : Element) :
  anchorAtLookup range st = Some a ->
  exists st',
    surround range st = Ok (tt, st')
    /\ effects st' =
         effects st ++
           [document_execCommand commandUnlink None; toolbar_close]
    /\ isFakeBackgroundEnabled (selection (tool st')) = false
    /\ map li_each (linkElements (tool st')) = pageLinks (tool st)
    /\ (inputOpened (tool st') = false ->
        savedSelectionRange (selection (tool st')) = None
        /\ input_value (nodes (tool st')) = []).
Proof.
  intros Ha. apply returns_unit.
  apply (returns_weaken _ _ _ _ (surround_summary range st)).
  intros _ st' (_ & _ & Hcase). rewrite Ha in Hcase. tauto.
Qed.

(** X15: a click on the icon of the closed panel, with a range and no link
    around the selection, opens the panel: the fake highlight is on, the
    guard has saved the live selection (if there is one), the panel and
    the URL input are shown, the input is focused and keeps its text. *)
Theorem surround_opens_panel (r : Range) (st : State) :
  inputOpened (tool st) = false ->
  Selection.findParentTag "A" (paintFake (browser st)) = None ->
  exists st',
    surround (Some r) st = Ok (tt, st')
    /\ inputOpened (tool st') = true
    /\ div_showed (nodes (tool st')) = true
    /\ input_showed (nodes (tool st')) = true
    /\ input_value (nodes (tool st')) = input_value (nodes (tool st))
    /\ effects st' = effects st ++ [input_focus]
    /\ browser st' = focusInput (paintFake (browser st))
    /\ isFakeBackgroundEnabled (selection (tool st')) = true
    /\ savedSelectionRange (selection (tool st')) =
         match live (paintFake (browser st)) with
         | Some r' => Some r'
         | None => savedSelectionRange (selection (tool st))
         end.
Proof.
  intros Ho Ha. apply returns_unit.
  apply (returns_weaken _ _ _ _ (surround_summary (Some r) st)).
  intros _ st' (_ & _ & Hcase).
  unfold anchorAtLookup, browserAtLookup in Hcase.
  rewrite Ho, Ha in Hcase. cbn [negb] in Hcase.
  destruct Hcase as (_ & Hi & Hd & Hn & He & Hv & Hb & Hs).
  rewrite Hs. unfold Selection.save.
  destruct (live (paintFake (browser st))); cbn; auto 10.
Qed.

(** X16: [surround] never throws, and what it issues is one of three
    things: nothing (toggle-close), the focus of the URL input
    (toggle-open), or [unlink] followed by the close of the host toolbar;
    so it never inserts a link and never notifies.  The stored pages and
    the external store are as before, and the shown classes of the panel
    agree with [inputOpened] afterwards. *)
Theorem surround_outcomes (range : option Range) (st : State) :
  exists st' issued,
    surround range st = Ok (tt, st')
    /\ effects st' = effects st ++ issued
    /\ (issued = [] \/ issued = [input_focus]
        \/ issued = [document_execCommand commandUnlink None; toolbar_close])
    /\ pageLinks (tool st') = pageLinks (tool st)
    /\ existingLinks st' = existingLinks st
    /\ panelInSync st'.
Proof.
  destruct (surround_summary range st) as ([] & st' & Hrun & Hp & Hx & Hcase).
  unfold panelInSync.
  destruct (anchorAtLookup range st).
  - destruct Hcase as (He & _ & _ & Hd & Hn & _).
    exists st', [document_execCommand commandUnlink None; toolbar_close].
    auto 10.
  - destruct Hcase as (_ & Hi & Hd & Hn & Hrest).
    destruct (inputOpened (tool st)).
    + destruct Hrest as (He & _). exists st', [].
      rewrite app_nil_r, Hi, Hd, Hn. auto 10.
    + destruct Hrest as (He & _). exists st', [input_focus].
      rewrite Hi, Hd, Hn. auto 10.
Qed.

(** What a submit leaves of the panel and the guard. *)
Lemma enterPressed_summary (isExisting : bool) (data : jsstring)
    (st : State) :
  returns (enterPressed isExisting data) st (fun _ st' =>
    pageLinks (tool st') = pageLinks (tool st)
    /\ linkElements (tool st') = linkElements (tool st)
    /\ ((inputOpened (tool st') = false
         /\ div_showed (nodes (tool st')) = false
         /\ input_showed (nodes (tool st')) = false
         /\ isFakeBackgroundEnabled (selection (tool st')) = false)
        \/ (inputOpened (tool st') = inputOpened (tool st)
            /\ nodes (tool st') = nodes (tool st)
            /\ (isFakeBackgroundEnabled (selection (tool st')) = false
                \/ selection (tool st') = selection (tool st))))).
Proof.
  unfold enterPressed. step. step.
  destruct (truthy (trim (submitted isExisting data st))); cbn [negb].
  - steps; cbn; (split; [reflexivity|]); (split; [reflexivity|]); right;
      unfold Selection.removeFakeBackground;
      destruct (isFakeBackgroundEnabled (selection (tool st))) eqn:Ef;
      cbn; auto.
  - upto.
    eapply returns_weaken; [apply closeActions_summary|]. cbn beta.
    intros _ s1 (Hp1 & Hl1 & Hx1 & He1 & Hi1 & Hn1 & Hs1 & Hb1).
    cbn in Hp1, Hl1. steps; cbn;
      (split; [exact Hp1|]); (split; [exact Hl1|]); left;
      unfold Selection.removeFakeBackground; rewrite ?Hs1, Hn1, Hi1; cbn;
      auto.
Qed.

Lemma keydown_cases (keyCode : N) (st : State) (Q : unit -> State -> Prop) :
  returns (enterPressed false []) st Q -> Q tt st ->
  returns (input_keydown keyCode) st Q.
Proof.
  intros He Hs. unfold input_keydown, when.
  destruct (N.eqb keyCode ENTER_KEY); [exact He | apply returns_ret, Hs].
Qed.

Lemma renderActions_inv (st st' : State) :
  renderActions st = Ok (tt, st') ->
  nodes (tool st') =
    mkNodes (button_unlink (nodes (tool st)))
            (button_active (nodes (tool st))) [] false false []
  /\ linkElements (tool st') = rendered (pageLinks (tool st'))
  /\ inputOpened (tool st') = inputOpened (tool st)
  /\ selection (tool st') = selection (tool st).
Proof.
  intros Hrun. unfold renderActions, bind at 1 in Hrun.
  destruct (readExistingLinks st) as [[pages st1]|e] eqn:E; [|discriminate].
  pose proof (readExistingLinks_state _ _ _ E) as ->.
  cbn in Hrun. injection Hrun as <-. cbn. auto.
Qed.

(** X17: a closed panel never shows a fake highlight.  If that holds of a
    state it holds after every method and listener, none of which throws:
    [surround], [checkState], [clear], [enterPressed], the two key
    listeners, a click on a list element, [render], and [renderActions]
    whenever it returns. *)
Theorem noStrayHighlight_kept (st : State) :
  noStrayHighlight st ->
  holdsAfterEach noStrayHighlight st
  /\ forall st', renderActions st = Ok (tt, st') -> noStrayHighlight st'.
Proof.
  intros Hinv.
  assert (Hsubmit : forall isExisting data,
    returns (enterPressed isExisting data) st
      (fun _ st' => noStrayHighlight st')).
  { intros isExisting data.
    apply (returns_weaken _ _ _ _ (enterPressed_summary isExisting data st)).
    intros _ st' (_ & _ & [(_ & _ & _ & Hf) | (Hi & _ & [Hf | Hs])]);
      unfold noStrayHighlight in *; auto.
    rewrite Hi, Hs. exact Hinv. }
  split; [repeat split|].
  - intros range.
    apply (returns_weaken _ _ _ _ (surround_summary range st)).
    intros _ st' (_ & _ & Hcase) Hclosed.
    destruct (anchorAtLookup range st).
    + tauto.
    + destruct Hcase as (_ & Hi & _ & _ & Hrest).
      destruct (inputOpened (tool st)); [tauto|].
      rewrite Hi in Hclosed. discriminate.
  - apply (returns_weaken _ _ _ _ (checkState_summary st)).
    intros r st' (_ & _ & _ & _ & Hcase) Hclosed.
    destruct (Selection.findParentTag "A" (browser st)); cbn zeta in Hcase.
    + destruct Hcase as (_ & Hi & _). congruence.
    + destruct Hcase as (_ & Hi & Hs & _). rewrite Hs. apply Hinv. congruence.
  - unfold clear.
    apply (returns_weaken _ _ _ _ (closeActions_summary true st)).
    intros _ st' (_ & _ & _ & _ & _ & _ & Hs & _) _. rewrite Hs. reflexivity.
  - exact Hsubmit.
  - intros keyCode. apply keydown_cases; [apply Hsubmit | exact Hinv].
  - intros li. apply Hsubmit.
  - unfold searchInput_keyup. steps; exact Hinv.
  - unfold render. steps. exact Hinv.
  - intros st' Hrun. destruct (renderActions_inv _ _ Hrun) as (_ & _ & Hi & Hs).
    unfold noStrayHighlight. rewrite Hi, Hs. exact Hinv.
Qed.

Lemma listed_of_map (st : State) :
  map li_each (linkElements (tool st)) = pageLinks (tool st) -> listed st.
Proof.
  intros E li Hli. rewrite <- E. apply in_map, Hli.
Qed.

(** X18: every rendered list element stands for a stored page, so a click
    on the list can only submit the url of a stored page.  If that holds of
    a state it holds after every method and listener, and after
    [renderActions] whenever it returns. *)
Theorem listed_kept (st : State) :
  listed st ->
  holdsAfterEach listed st
  /\ forall st', renderActions st = Ok (tt, st') -> listed st'.
Proof.
  intros Hinv.
  assert (Hsame : forall st' : State,
    pageLinks (tool st') = pageLinks (tool st) ->
    linkElements (tool st') = linkElements (tool st) -> listed st').
  { intros st' Hp Hl li. rewrite Hp, Hl. apply Hinv. }
  assert (Hsubmit : forall isExisting data,
    returns (enterPressed isExisting data) st (fun _ st' => listed st')).
  { intros isExisting data.
    apply (returns_weaken _ _ _ _ (enterPressed_summary isExisting data st)).
    intros _ st' (Hp & Hl & _). auto. }
  split; [repeat split|].
  - intros range.
    apply (returns_weaken _ _ _ _ (surround_summary range st)).
    intros _ st' (Hp & _ & Hcase).
    destruct (anchorAtLookup range st).
    + apply listed_of_map. destruct Hcase as (_ & Hm & _). congruence.
    + apply Hsame; tauto.
  - apply (returns_weaken _ _ _ _ (checkState_summary st)).
    intros r st' (_ & _ & _ & Hp & Hcase). apply listed_of_map.
    destruct (Selection.findParentTag "A" (browser st)); cbn zeta in Hcase;
      destruct Hcase as (_ & _ & _ & _ & ->); rewrite Hp;
      unfold rendered; rewrite map_map; cbn; apply map_id.
  - unfold clear.
    apply (returns_weaken _ _ _ _ (closeActions_summary true st)).
    intros _ st' (Hp & Hl & _). auto.
  - exact Hsubmit.
  - intros keyCode. apply keydown_cases; [apply Hsubmit | exact Hinv].
  - intros li. apply Hsubmit.
  - unfold searchInput_keyup. do 4 step.
    assert (Hfilter : forall f,
      listed (set_linkElements (rendered (List.filter f (pageLinks (tool st))))
                st)).
    { intros f li Hli. cbn in *. unfold rendered in Hli.
      apply in_map_iff in Hli. destruct Hli as (p & <- & Hp).
      apply filter_In in Hp. tauto. }
    steps.
    + apply Hfilter.
    + apply listed_of_map. cbn. unfold rendered. rewrite map_map. cbn.
      apply map_id.
  - unfold render. steps. apply Hsame; reflexivity.
  - intros st' Hrun. destruct (renderActions_inv _ _ Hrun) as (_ & Hl & _).
    apply listed_of_map. rewrite Hl. unfold rendered. rewrite map_map. cbn.
    apply map_id.
Qed.

(** X19: the shown classes of the panel and of the URL input follow
    [inputOpened].  If that holds of a state it holds after every method
    and listener.  [renderActions] keeps it on a closed panel only: it
    hides the rebuilt panel and leaves [inputOpened] as it was. *)
Theorem panelInSync_kept (st : State) :
  panelInSync st ->
  holdsAfterEach panelInSync st
  /\ forall st',
       renderActions st = Ok (tt, st') ->
       div_showed (nodes (tool st')) = false
       /\ input_showed (nodes (tool st')) = false
       /\ inputOpened (tool st') = inputOpened (tool st)
       /\ (inputOpened (tool st) = false -> panelInSync st').
Proof.
  intros Hinv. pose proof Hinv as [Hd Hn].
  assert (Hsubmit : forall isExisting data,
    returns (enterPressed isExisting data) st (fun _ st' => panelInSync st')).
  { intros isExisting data.
    apply (returns_weaken _ _ _ _ (enterPressed_summary isExisting data st)).
    intros _ st' (_ & _ & [(Hi & Hd' & Hn' & _) | (Hi & Hnodes & _)]);
      unfold panelInSync.
    - rewrite Hi, Hd', Hn'. auto.
    - rewrite Hi, Hnodes. auto. }
  split; [repeat split|].
  - intros range.
    apply (returns_weaken _ _ _ _ (surround_summary range st)).
    intros _ st' (_ & _ & Hcase). unfold panelInSync.
    destruct (anchorAtLookup range st).
    + tauto.
    + destruct Hcase as (_ & -> & -> & -> & _). auto.
  - apply (returns_weaken _ _ _ _ (checkState_summary st)).
    intros r st' (_ & _ & _ & _ & Hcase). unfold panelInSync.
    destruct (Selection.findParentTag "A" (browser st)); cbn zeta in Hcase;
      destruct Hcase as (_ & Hi & _ & Hnodes & _); rewrite Hi, Hnodes; cbn;
      auto.
  - unfold clear.
    apply (returns_weaken _ _ _ _ (closeActions_summary true st)).
    intros _ st' (_ & _ & _ & _ & Hi & Hnodes & _). unfold panelInSync.
    rewrite Hi, Hnodes. auto.
  - exact Hsubmit.
  - intros keyCode. apply keydown_cases; [apply Hsubmit | exact Hinv].
  - intros li. apply Hsubmit.
  - unfold searchInput_keyup. steps; exact Hinv.
  - unfold render. steps. exact Hinv.
  - intros st' Hrun.
    destruct (renderActions_inv _ _ Hrun) as (Hnodes & _ & Hi & _).
    unfold panelInSync. rewrite Hnodes, Hi. cbn.
    repeat split; auto; intros ->; reflexivity.
Qed.

(** X20: a whole link creation.  From a closed panel over a selection
    outside any link: a click on the icon, a valid non-empty value typed
    into the URL input, Enter, and the [clear] with which the host answers
    the close of the inline toolbar.  The tool ends closed and hidden, with
    an empty URL input, no fake highlight and no saved snapshot, and it has
    issued the focus, one [createLink] with the value behind
    [addProtocol], the three event calls and the close of the inline
    toolbar, in this order. *)
Theorem link_creation_cycle (st : State) (r : Range) (v : jsstring) :
  inputOpened (tool st) = false ->
  Selection.findParentTag "A" (paintFake (browser st)) = None ->
  validateURL v = true ->
  truthy v = true ->
  exists st1 st3 st4,
    surround (Some r) st = Ok (tt, st1)
    /\ enterPressed false [] (set_nodes (with_input_value v) st1)
       = Ok (tt, st3)
    /\ clear st3 = Ok (tt, st4)
    /\ inputOpened (tool st4) = false
    /\ div_showed (nodes (tool st4)) = false
    /\ input_showed (nodes (tool st4)) = false
    /\ input_value (nodes (tool st4)) = []
    /\ selection (tool st4) = mkSelectionUtils None false
    /\ pageLinks (tool st4) = pageLinks (tool st)
    /\ effects st4 =
         effects st ++
           [input_focus;
            document_execCommand commandLink (Some (addProtocol v));
            event_preventDefault;
            event_stopPropagation;
            event_stopImmediatePropagation;
            inlineToolbar_close].
Proof.
  intros Ho Ha Hv Hn.
  destruct (surround_summary (Some r) st) as ([] & st1 & Hrun1 & Hp1 & _ & Hc1).
  unfold anchorAtLookup, browserAtLookup in Hc1. rewrite Ho, Ha in Hc1.
  destruct Hc1 as (_ & _ & _ & _ & He1 & _).
  set (st2 := set_nodes (with_input_value v) st1).
  assert (Hsub : submitted false [] st2 = v).
  { subst st2. unfold submitted. cbn. rewrite Hn. reflexivity. }
  pose proof (validated_trim v Hv) as Ht.
  destruct (enterPressed_valid_result st2 false []) as
    (st3 & Hrun3 & He3 & _ & _ & Hp3 & _).
  { rewrite Hsub. exact Hv. }
  { rewrite Hsub, Ht. exact Hn. }
  destruct (closeActions_summary true st3)
    as ([] & st4 & Hrun4 & Hp4 & _ & _ & He4 & Hi4 & Hn4 & Hs4 & _).
  exists st1, st3, st4. split; [exact Hrun1|]. split; [exact Hrun3|].
  split; [exact Hrun4|]. rewrite Hn4, Hs4, Hi4. cbn.
  repeat split.
  - rewrite Hp4, Hp3. subst st2. cbn. exact Hp1.
  - rewrite He4, He3, Hsub. subst st2. cbn. rewrite He1, <- app_assoc.
    unfold prepareLink. rewrite Ht. reflexivity.
Qed.

(** X22: a [keyup] in the search input right after [checkState] renders
    the whole list without any highlight: [checkState] has emptied the
    query, and the listener renders fresh elements, so the highlight that
    [checkState] had set is gone. *)
Theorem keyup_after_checkState_drops_highlight (st : State) :
  exists r st1 st2,
    checkState st = Ok (r, st1)
    /\ searchInput_keyup st1 = Ok (tt, st2)
    /\ linkElements (tool st2) = rendered (pageLinks (tool st))
    /\ forall li, In li (linkElements (tool st2)) -> li_selected li = false.
Proof.
  destruct (checkState_summary st)
    as (r & st1 & Hrun & _ & _ & _ & Hp & Hcase).
  assert (Hq : searchInput_value (nodes (tool st1)) = []).
  { destruct (Selection.findParentTag "A" (browser st)); cbn zeta in Hcase;
      destruct Hcase as (_ & _ & _ & -> & _); reflexivity. }
  exists r, st1, (set_linkElements (rendered (pageLinks (tool st1))) st1).
  split; [exact Hrun|]. split.
  - unfold searchInput_keyup, bind, gets, renderList, modify. cbn beta.
    rewrite Hq. reflexivity.
  - cbn. rewrite Hp. split; [reflexivity|].
    intros li Hli. unfold rendered in Hli. apply in_map_iff in Hli.
    destruct Hli as (p & <- & _). reflexivity.
Qed.

(** X23: a valid submit creates the link on the saved selection: with a
    snapshot stored and no fake highlight, [createLink] runs on the
    unchanged document with the snapshot as the live selection, or, when
    the snapshot lies inside a link, with the whole content of that link
    selected; the selection is then collapsed to its end. *)
Theorem enterPressed_links_saved_selection (st : State) (isExisting : bool)
    (data : jsstring) (saved : Range) :
  validateURL (submitted isExisting data st) = true ->
  truthy (trim (submitted isExisting data st)) = true ->
  savedSelectionRange (selection (tool st)) = Some saved ->
  isFakeBackgroundEnabled (selection (tool st)) = false ->
  exists st',
    enterPressed isExisting data st = Ok (tt, st')
    /\ browser st' =
         Selection.collapseToEnd
           (execCommand commandLink
              (Some (prepareLink (submitted isExisting data st)))
              (mkBrowser
                 (Some match ancestor "A" (dom (browser st)) saved with
                       | Some a => contentsOf (dom (browser st)) a
                       | None => saved
                       end)
                 (dom (browser st)))).
Proof.
  intros Hv Ht Hs Hf. apply returns_unit.
  unfold enterPressed. step. step. rewrite Ht, Hv. cbn [negb].
  steps; cbn in *.
  all: unfold Selection.removeFakeBackground, Selection.restore,
         Selection.findParentTag, Selection.expandToTag in *;
       rewrite Hs, Hf in *; cbn in *.
  all: match goal with E : ancestor _ _ _ = _ |- _ => rewrite E end.
  all: reflexivity.
Qed.


End Transitions.

(** X24: the four patterns that make [addProtocol] keep its argument are
    pairwise exclusive, so the order in which the source tests them cannot
    change the result. *)
Theorem addProtocol_patterns_exclusive (s : jsstring) :
  let protocol := test re_protocol s in
  let internal := test re_internal s in
  let anchor := JS.eqb (substring01 s) (lit "#") in
  let relative := test re_protocolRelative s in
  protocol && internal = false
  /\ protocol && anchor = false
  /\ protocol && relative = false
  /\ internal && anchor = false
  /\ internal && relative = false
  /\ anchor && relative = false.
Proof.
  cbn zeta.
  rewrite test_protocol, test_internal, test_protocolRelative,
    substring_anchor.
  destruct s as [|c1 [|c2 [|c3 s]]]; cbn [Rules.beginsWithScheme
    Rules.beginsInternal Rules.beginsAnchor Rules.beginsProtocolRelative];
    rewrite ?andb_false_r; repeat split; try reflexivity.
  all: try (destruct (N.eqb c1 slash) eqn:E1;
            [apply N.eqb_eq in E1; subst c1; reflexivity|]).
  all: try (destruct (N.eqb c1 hash) eqn:E2;
            [apply N.eqb_eq in E2; subst c1; try reflexivity|]).
  all: rewrite ?andb_false_r, ?andb_false_l; try reflexivity.
  all: try discriminate.
  all: destruct (N.eqb c2 slash); cbn; rewrite ?andb_false_r; reflexivity.
Qed.

(** ** Runs on the sample host *)

Import Sample.

(** C1 fails as stated: a single space fails validation, yet the submit
    closes the open panel, empties the input, unlinks and drops the saved
    selection before it notifies. *)
Lemma enterPressed_space_closes :
  validateURL (submitted false [] blankTyped) = false
  /\ inputOpened (tool blankTyped) = true
  /\ input_value (nodes (tool blankTyped)) = lit " "
  /\ savedSelectionRange (selection (tool blankTyped)) = Some 1%nat
  /\ exists st',
       enterPressed false [] blankTyped = Ok (tt, st')
       /\ inputOpened (tool st') = false
       /\ input_value (nodes (tool st')) = []
       /\ savedSelectionRange (selection (tool st')) = None
       /\ In (document_execCommand commandUnlink None) (effects st')
       /\ In (notifier_show "Pasted link is not valid." "error") (effects st').
Proof.
  do 4 (split; [reflexivity|]).
  eexists. split; [vm_compute; reflexivity|].
  cbn. repeat split; auto.
Qed.

Lemma enterPressed_invalid_aborts_witness :
  exists st',
    enterPressed false [] badTyped = Ok (tt, st')
    /\ tool st' = tool badTyped
    /\ browser st' = browser badTyped
    /\ existingLinks st' = existingLinks badTyped
    /\ effects st' =
         effects badTyped ++
           [notifier_show "Pasted link is not valid." "error";
            utils_log "Incorrect Link pasted" "warn"
                      (submitted false [] badTyped)].
Proof.
  apply (enterPressed_invalid_aborts badTyped false []); reflexivity.
Defined.

Lemma enterPressed_empty_inserts_link_witness :
  exists st',
    enterPressed false [] opened = Ok (tt, st')
    /\ inputOpened (tool st') = false
    /\ In (document_execCommand commandLink (Some (lit "http://")))
          (effects st')
    /\ effects st' =
         effects opened ++
           [document_execCommand commandUnlink None;
            event_preventDefault;
            document_execCommand commandLink (Some (lit "http://"));
            event_preventDefault;
            event_stopPropagation;
            event_stopImmediatePropagation;
            inlineToolbar_close].
Proof.
  apply (enterPressed_empty_inserts_link opened false []); reflexivity.
Defined.

(** C3 fails as stated: on a closed panel with the selection inside a
    link, [checkState] opens the panel. *)
Lemma checkState_opens_closed_panel :
  inputOpened (tool onLink) = false
  /\ div_showed (nodes (tool onLink)) = false
  /\ exists st',
       checkState onLink = Ok (true, st')
       /\ inputOpened (tool st') = true
       /\ div_showed (nodes (tool st')) = true
       /\ input_showed (nodes (tool st')) = true.
Proof.
  do 2 (split; [reflexivity|]).
  eexists. split; [vm_compute; reflexivity|].
  cbn. auto.
Qed.

(** C7 fails as stated: the panel was built while nothing was stored; the
    external list then holds [Home]; the click that opens the panel leaves
    the stored page list empty, while a read at that time yields [Home]. *)
Lemma open_keeps_stale_pageLinks :
  inputOpened (tool builtThenStored) = false
  /\ exists st',
       surround (Some 1%nat) builtThenStored = Ok (tt, st')
       /\ inputOpened (tool st') = true
       /\ pageLinks (tool st') = []
       /\ readExistingLinks st' = Ok ([Home], st').
Proof.
  split; [reflexivity|].
  eexists. split; [vm_compute; reflexivity|].
  repeat split.
Qed.

Lemma checkState_on_link_witness :
  exists st',
    checkState onLink = Ok (true, st')
    /\ input_value (nodes (tool st')) = lit "/"
    /\ linkElements (tool st') = [mkLi Home true; mkLi About false].
Proof.
  destruct (checkState_on_link onLink (1%nat, Some (lit "/")))
    as (st' & Hrun & _ & Hin & Hls & _); [reflexivity|].
  exists st'. split; [exact Hrun|].
  split; [apply Hin; reflexivity | exact Hls].
Defined.

(** C4 fails as stated: the href of the link holds a line feed, and the
    URL input ends up with the href without it. *)
Lemma checkState_strips_line_feed :
  Selection.findParentTag "A" (browser onBrokenLink)
  = Some (1%nat, Some (lit "/a" ++ [10] ++ lit "b"))
  /\ exists st',
       checkState onBrokenLink = Ok (true, st')
       /\ input_value (nodes (tool st')) = lit "/ab"
       /\ input_value (nodes (tool st')) <> lit "/a" ++ [10] ++ lit "b".
Proof.
  split; [reflexivity|].
  eexists. split; [vm_compute; reflexivity|].
  split; [reflexivity|]. vm_compute. discriminate.
Qed.

Lemma searchInput_keyup_mixed_case_query_witness :
  exists st',
    searchInput_keyup mixedCaseQuery = Ok (tt, st')
    /\ linkElements (tool st') = [].
Proof.
  apply (searchInput_keyup_mixed_case_query mixedCaseQuery); reflexivity.
Defined.

Lemma validateURL_empty_and_blank_submit_witness :
  (exists st' added,
     enterPressed false [] opened = Ok (tt, st')
     /\ effects st' = effects opened ++ added
     /\ forall message style, ~ In (notifier_show message style) added)
  /\ validateURL (lit " ") = false
  /\ exists st',
       enterPressed false [] blankTyped = Ok (tt, st')
       /\ effects st' =
            effects blankTyped ++
              [document_execCommand commandUnlink None;
               event_preventDefault;
               notifier_show "Pasted link is not valid." "error";
               utils_log "Incorrect Link pasted" "warn" (lit " ")].
Proof.
  destruct (validateURL_empty_and_blank_submit opened false [])
    as (_ & _ & Hempty & _).
  destruct (validateURL_empty_and_blank_submit blankTyped false [])
    as (_ & _ & _ & Hblank).
  split; [apply Hempty | apply Hblank]; reflexivity.
Defined.

(** ** Further runs on the sample host *)

Lemma prepareLink_of_validated_witness :
  trim (lit "vc.ru") = lit "vc.ru"
  /\ prepareLink (lit "vc.ru") = addProtocol (lit "vc.ru")
  /\ validateURL (prepareLink (lit "vc.ru")) = true.
Proof. apply (prepareLink_of_validated (lit "vc.ru")). reflexivity. Defined.

Lemma addProtocol_unchanged_iff_witness :
  addProtocol (lit "vc.ru") = lit "http://" ++ lit "vc.ru".
Proof.
  apply (proj2 (addProtocol_unchanged_iff (lit "vc.ru"))). reflexivity.
Defined.

Lemma prepareLink_never_empty_witness :
  prepareLink (lit "  ") = lit "http://".
Proof.
  apply (proj2 (prepareLink_never_empty (lit "  "))). reflexivity.
Defined.

Lemma checkState_button_and_guard_witness :
  exists st',
    checkState onLink = Ok (true, st')
    /\ button_unlink (nodes (tool st')) = true
    /\ button_active (nodes (tool st')) = true
    /\ savedSelectionRange (selection (tool st')) = Some 1%nat.
Proof.
  destruct (checkState_button_and_guard onLink)
    as (r & st' & Hrun & Hcase).
  change (Selection.findParentTag "A" (browser onLink))
    with (Some (1%nat, Some (lit "/"))) in Hcase.
  destruct Hcase as (-> & Hu & Ha & Hs & _).
  exists st'. split; [exact Hrun|]. split; [exact Hu|].
  split; [exact Ha | exact Hs].
Defined.

Lemma closeActions_twice_witness :
  exists st1 st2,
    closeActions true opened = Ok (tt, st1)
    /\ closeActions true st1 = Ok (tt, st2)
    /\ st2 = st1.
Proof.
  destruct (closeActions_twice true true opened)
    as (st1 & st2 & Hrun1 & Hrun2 & _ & Hsame).
  exists st1, st2. split; [exact Hrun1|]. split; [exact Hrun2|].
  apply Hsame. reflexivity.
Defined.

Lemma closeActions_keeps_newer_selection_witness :
  exists st',
    closeActions true reselected = Ok (tt, st')
    /\ isFakeBackgroundEnabled (selection (tool st')) = false
    /\ live (browser st') = Some 2%nat.
Proof.
  destruct (closeActions_keeps_newer_selection true reselected)
    as (st' & Hrun & Hf & _ & Hlive).
  exists st'. split; [exact Hrun|]. split; [exact Hf|].
  apply Hlive; reflexivity.
Defined.

Lemma enterPressed_valid_submit_witness :
  exists st',
    enterPressed true (lit "/about") opened = Ok (tt, st')
    /\ effects st' =
         effects opened ++
           [document_execCommand commandLink
              (Some (prepareLink (submitted true (lit "/about") opened)));
            event_preventDefault;
            event_stopPropagation;
            event_stopImmediatePropagation;
            inlineToolbar_close]
    /\ inputOpened (tool st') = inputOpened (tool opened)
    /\ nodes (tool st') = nodes (tool opened)
    /\ pageLinks (tool st') = pageLinks (tool opened)
    /\ linkElements (tool st') = linkElements (tool opened)
    /\ savedSelectionRange (selection (tool st')) =
         savedSelectionRange (selection (tool opened))
    /\ isFakeBackgroundEnabled (selection (tool st')) = false.
Proof.
  apply (enterPressed_valid_submit opened true (lit "/about")); reflexivity.
Defined.

Lemma searchInput_keyup_filter_witness :
  exists st',
    searchInput_keyup (typeSearch (lit " ") opened) = Ok (tt, st')
    /\ map li_each (linkElements (tool st')) = [Home; About].
Proof.
  destruct (searchInput_keyup_filter (typeSearch (lit " ") opened))
    as (st' & Hrun & _ & _ & _ & _ & Hall).
  exists st'. split; [exact Hrun|]. apply Hall. reflexivity.
Defined.

Lemma renderActions_rebuilds_witness :
  exists st',
    renderActions opened = Ok (tt, st')
    /\ pageLinks (tool st') = []
    /\ linkElements (tool st') = [].
Proof.
  apply (proj1 (renderActions_rebuilds opened)). left. reflexivity.
Defined.

Lemma surround_unlink_shortcut_witness :
  exists st',
    surround (Some 1%nat) onLink = Ok (tt, st')
    /\ effects st' =
         effects onLink ++
           [document_execCommand commandUnlink None; toolbar_close]
    /\ isFakeBackgroundEnabled (selection (tool st')) = false
    /\ map li_each (linkElements (tool st')) = pageLinks (tool onLink)
    /\ (inputOpened (tool st') = false ->
        savedSelectionRange (selection (tool st')) = None
        /\ input_value (nodes (tool st')) = []).
Proof.
  eapply surround_unlink_shortcut. reflexivity.
Defined.

Lemma surround_opens_panel_witness :
  exists st',
    surround (Some 1%nat) plain = Ok (tt, st')
    /\ inputOpened (tool st') = true
    /\ div_showed (nodes (tool st')) = true
    /\ input_showed (nodes (tool st')) = true
    /\ input_value (nodes (tool st')) = input_value (nodes (tool plain))
    /\ effects st' = effects plain ++ [input_focus]
    /\ browser st' = focusInput (paintFake (browser plain))
    /\ isFakeBackgroundEnabled (selection (tool st')) = true
    /\ savedSelectionRange (selection (tool st')) =
         match live (paintFake (browser plain)) with
         | Some r' => Some r'
         | None => savedSelectionRange (selection (tool plain))
         end.
Proof.
  apply (surround_opens_panel (1%nat : @Range types) plain); reflexivity.
Defined.

Lemma noStrayHighlight_kept_witness :
  holdsAfterEach noStrayHighlight plain
  /\ forall st', renderActions plain = Ok (tt, st') -> noStrayHighlight st'.
Proof. apply (noStrayHighlight_kept plain). intros _. reflexivity. Defined.

Lemma listed_kept_witness :
  holdsAfterEach listed plain
  /\ forall st', renderActions plain = Ok (tt, st') -> listed st'.
Proof.
  apply (listed_kept plain).
  intros li [<- | [<- | []]]; [left | right; left]; reflexivity.
Defined.

Lemma panelInSync_kept_witness :
  holdsAfterEach panelInSync opened.
Proof. apply (panelInSync_kept opened). split; reflexivity. Defined.

Lemma link_creation_cycle_witness :
  exists st1 st3 st4,
    surround (Some 1%nat) plain = Ok (tt, st1)
    /\ enterPressed false [] (set_nodes (with_input_value (lit "vc.ru")) st1)
       = Ok (tt, st3)
    /\ clear st3 = Ok (tt, st4)
    /\ inputOpened (tool st4) = false
    /\ div_showed (nodes (tool st4)) = false
    /\ input_showed (nodes (tool st4)) = false
    /\ input_value (nodes (tool st4)) = []
    /\ selection (tool st4) = mkSelectionUtils None false
    /\ pageLinks (tool st4) = pageLinks (tool plain)
    /\ effects st4 =
         effects plain ++
           [input_focus;
            document_execCommand commandLink (Some (addProtocol (lit "vc.ru")));
            event_preventDefault;
            event_stopPropagation;
            event_stopImmediatePropagation;
            inlineToolbar_close].
Proof.
  apply (link_creation_cycle plain (1%nat : @Range types) (lit "vc.ru"));
    reflexivity.
Defined.

Lemma keyup_after_checkState_drops_highlight_witness :
  exists r st1 st2,
    checkState onLink = Ok (r, st1)
    /\ searchInput_keyup st1 = Ok (tt, st2)
    /\ linkElements (tool st2) = rendered [Home; About].
Proof.
  destruct (keyup_after_checkState_drops_highlight onLink)
    as (r & st1 & st2 & Hrun1 & Hrun2 & Hl & _).
  exists r, st1, st2. split; [exact Hrun1|]. split; [exact Hrun2 | exact Hl].
Defined.

Lemma enterPressed_links_saved_selection_witness :
  exists st',
    enterPressed false [] checked = Ok (tt, st')
    /\ live (browser st') = Some 1%nat
    /\ dom (browser st') = [(1%nat, Some (lit "http:///"))].
Proof.
  destruct (enterPressed_links_saved_selection checked false []
              (1%nat : @Range types))
    as (st' & Hrun & Hb); [reflexivity | reflexivity | reflexivity
                           | reflexivity |].
  exists st'. split; [exact Hrun|]. rewrite Hb. split; reflexivity.
Defined.


